(** * Query endpoints of the drug-drug interaction API (app/routes/routes.py)

    A shallow embedding of the route handlers that carry logic of their own:
    the alternative-drug search, the ancestor resolver, the culprit ranking,
    the two "most likely side effects" rankings and the three MIMIC lookups.

    Conventions of the embedding.
    - A table of the row store is the list of its rows in retrieval order;
      [Query.all()] is a filter over that list and [Query.first()] its head.
    - A nullable column is an [option]; the name and rate columns of the two
      rate tables and the columns of the ancestor table are taken non-null,
      as section 3 of the specification gives them (names are names, rates
      are numbers).
    - A Python float is an exact rational ([Qc]); the division that Python
      refuses (a zero divisor) is written out as a raised exception.
    - An exception is a value of [exn]; a handler returns [Return v] (HTTP 200
      with body [v]) or [Raise e].
    - What lives outside the repository and is not fixed by it (the text
      [str(e)] of an exception, [str.lower], the store's comparison of an
      integer column with a string parameter, the order in which an unstable
      sort leaves ties, [datetime]) is a [Variable] of its section. *)

From Stdlib Require Import QArith Qcanon Ascii String DecimalString.
From stdpp Require Import gmap strings list sorting pretty.

Local Open Scope string_scope.

(** ** Exceptions and results *)

Inductive exn : Type :=
  | HTTPException (status_code : Z) (detail : string)
  | ZeroDivisionError
  | ValueError (msg : string).

Inductive result (A : Type) : Type :=
  | Return (a : A)
  | Raise (e : exn).
Arguments Return {A} a.
Arguments Raise {A} e.

#[global] Instance result_bind : MBind result := λ A B f m,
  match m with
  | Return a => f a
  | Raise e => Raise e
  end.

(** [for x in l: body] where the body may raise: elements are visited in
    order and the first exception leaves the loop. *)
Fixpoint for_each {A B : Type} (body : A → result B) (l : list A) : result (list B) :=
  match l with
  | [] => Return []
  | x :: l' =>
      match body x with
      | Return y =>
          match for_each body l' with
          | Return ys => Return (y :: ys)
          | Raise e => Raise e
          end
      | Raise e => Raise e
      end
  end.

(** The status line a client sees: the status code of an [HTTPException], and
    500 for any other exception that leaves a handler. *)
Definition status_of {A : Type} (r : result A) : Z :=
  match r with
  | Return _ => 200
  | Raise (HTTPException c _) => c
  | Raise _ => 500
  end.

(** ** Rows of the store (app/db/models.py), restricted to the columns read *)

Module SiderDrugIndications.
Record t : Type := mk {
  drug_concept_name : option string;
  event_concept_name : option string }.
End SiderDrugIndications.

Module PTtoHLTMapping.
Record t : Type := mk {
  descendant_concept_name : string;
  ancestor_concept_name : string;
  ancestor_concept_class_id : string }.
End PTtoHLTMapping.

Module BarklaData.
Record t : Type := mk {
  side_effect : string;
  drug_name : string;
  combined_rate : Qc }.
End BarklaData.

Module FAERSData.
Record t : Type := mk {
  drug_name : string;
  side_effect : string;
  drug_side_effect_occurrence_count : Z;
  case_count_with_drug : Z;
  rate : Qc;
  wilson_interval : Qc }.
End FAERSData.

Module Patient.
Record t : Type := mk {
  SUBJECT_ID : Z;
  GENDER : string;
  DOB : string }.
End Patient.

Module Prescription.
Record t : Type := mk {
  SUBJECT_ID : Z;
  STARTDATE : option string;
  ENDDATE : option string;
  DRUG : option string;
  DRUG_NAME_GENERIC : option string;
  FORMULARY_DRUG_CD : option string;
  DOSE_VAL_RX : option string;
  DOSE_UNIT_RX : option string;
  ROUTE : option string }.
End Prescription.

Module Diagnosis.
Record t : Type := mk {
  SUBJECT_ID : Z;
  HADM_ID : option Z;
  ICD9_CODE : option string }.
End Diagnosis.

Module D_Icd.
Record t : Type := mk {
  ICD9_CODE : string;
  SHORT_TITLE : option string;
  LONG_TITLE : option string }.
End D_Icd.

Module Admission.
Record t : Type := mk {
  HADM_ID : Z;
  ADMITTIME : option string;
  DISCHTIME : option string;
  DIAGNOSIS : option string }.
End Admission.

(** The session: one list of rows per table. *)
Record Session : Type := mkSession {
  sider_drug_indications : list SiderDrugIndications.t;
  pt_to_hlt_or_hlgt : list PTtoHLTMapping.t;
  barkla_weighted_rate : list BarklaData.t;
  faers_counts_2024 : list FAERSData.t;
  patients : list Patient.t;
  prescriptions : list Prescription.t;
  diagnoses : list Diagnosis.t;
  d_icd : list D_Icd.t;
  admissions : list Admission.t }.

(** ** SQL predicates on nullable text columns

    A comparison with NULL is unknown, and a WHERE clause keeps a row only when
    its condition is true. *)

Definition sql_in (c : option string) (l : list string) : Prop :=
  match c with
  | Some s => s ∈ l
  | None => False
  end.

Definition sql_ne (c : option string) (s : string) : Prop :=
  match c with
  | Some s' => s' ≠ s
  | None => False
  end.

#[global] Instance sql_in_dec c l : Decision (sql_in c l).
Proof. destruct c; simpl; apply _. Defined.

#[global] Instance sql_ne_dec c s : Decision (sql_ne c s).
Proof. destruct c; simpl; apply _. Defined.

(** ** Python and pandas helpers shared by the handlers *)

(** [float / float]: a zero divisor raises. *)
Definition py_truediv (a b : Qc) : result Qc :=
  if decide (b = 0%Qc) then Raise ZeroDivisionError else Return (a / b)%Qc.

(** [sum(xs)]: starts from 0 and adds from the left. *)
Definition py_sum (xs : list Qc) : Qc := foldl Qcplus 0%Qc xs.

(** [x if x else ""] on a nullable text column: None and the empty string
    are both falsy. *)
Definition or_empty (c : option string) : string :=
  match c with
  | Some s => if decide (s = "") then "" else s
  | None => ""
  end.

(** [sorted(l, key=..., reverse=True)] and the multi-key
    [DataFrame.sort_values] are stable sorts. [before y x] says that [y] has
    to stand before [x] wherever they were; elements that [before] does not
    order keep their relative order. *)
Section stable_sort.
Context {A : Type} (before : A → A → Prop) `{!∀ y x, Decision (before y x)}.

Fixpoint stable_insert (x : A) (l : list A) : list A :=
  match l with
  | [] => [x]
  | y :: l' => if decide (before y x) then y :: stable_insert x l' else x :: y :: l'
  end.

Fixpoint stable_sort (l : list A) : list A :=
  match l with
  | [] => []
  | x :: l' => stable_insert x (stable_sort l')
  end.

End stable_sort.

(** Assigning [names] to [frame.columns]: pandas refuses a list whose length
    is not the frame's number of columns, and [pd.DataFrame([])] has none
    ([width] is the number of columns of a frame built from at least one
    row). *)
Definition set_columns {A : Type} (width : nat) (names : list string)
    (frame : list A) : result (list A) :=
  let n_columns := match frame with [] => 0 | _ :: _ => width end in
  if decide (n_columns = length names) then Return frame
  else Raise (ValueError "Length mismatch").

(** [groupby(key).sum()] of the rate column: one running total per key. *)
Definition groupby_sum (rows : list BarklaData.t) : gmap string Qc :=
  foldl (λ acc r,
      <[BarklaData.side_effect r :=
          (default 0%Qc (acc !! BarklaData.side_effect r)
           + BarklaData.combined_rate r)%Qc]> acc)
    ∅ rows.

(** [reset_index()]: the groups as rows, in ascending order of the key
    (groupby sorts its keys). *)
Definition reset_index (groups : gmap string Qc) : list (string * Qc) :=
  merge_sort (λ a b, String.le a.1 b.1) (map_to_list groups).

(** [Series.idxmax()] followed by [.loc]: the row of the first occurrence of
    the maximum; an empty series raises. *)
Fixpoint idxmax_from (best : BarklaData.t) (l : list BarklaData.t) : BarklaData.t :=
  match l with
  | [] => best
  | r :: l' =>
      if decide (BarklaData.combined_rate best < BarklaData.combined_rate r)%Qc
      then idxmax_from r l' else idxmax_from best l'
  end.

Definition idxmax (l : list BarklaData.t) : result BarklaData.t :=
  match l with
  | [] => Raise (ValueError "attempt to get argmax of an empty sequence")
  | r :: l' => Return (idxmax_from r l')
  end.

(** [groupby('drug_name').head(n)]: a row is kept when fewer than [n] rows of
    its group stand before it; kept rows stay in the frame's order. [seen]
    counts the rows met so far per group. *)
Fixpoint groupby_head_from (n : nat) (seen : gmap string nat)
    (frame : list FAERSData.t) : list FAERSData.t :=
  match frame with
  | [] => []
  | r :: frame' =>
      let c := default 0 (seen !! FAERSData.drug_name r) in
      let rest := groupby_head_from n (<[FAERSData.drug_name r := S c]> seen) frame' in
      if decide (c < n) then r :: rest else rest
  end.

Definition groupby_head (n : nat) (frame : list FAERSData.t) : list FAERSData.t :=
  groupby_head_from n ∅ frame.

(** The order of [sort_values(by=['drug_name', 'rate'], ascending=[True, False])]. *)
Definition faers_before (y x : FAERSData.t) : Prop :=
  strict String.le (FAERSData.drug_name y) (FAERSData.drug_name x)
  ∨ (FAERSData.drug_name y = FAERSData.drug_name x
     ∧ (FAERSData.rate x < FAERSData.rate y)%Qc).

#[global] Instance faers_before_dec y x : Decision (faers_before y x).
Proof. unfold faers_before, strict. apply _. Defined.

(** The order of [sorted(..., key=lambda x: x.score, reverse=True)] on rows
    paired with their score: a strictly larger score goes first. *)
Definition score_before (y x : BarklaData.t * Qc) : Prop := (x.2 < y.2)%Qc.

#[global] Instance score_before_dec y x : Decision (score_before y x).
Proof. unfold score_before. apply _. Defined.

(** ** Response records *)

Module AlternativeDrug.
Record t : Type := mk { drug_concept_name : option string }.
End AlternativeDrug.

Module CulpritEntry.
Record t : Type := mk {
  drug_name : string;
  combined_rate : Qc;
  score : Qc }.
End CulpritEntry.

Module SideEffectEntry.
Record t : Type := mk {
  side_effect : string;
  total_rate : Qc;
  most_likely_drug : string }.
End SideEffectEntry.

Module PrescriptionResponse.
Record t : Type := mk {
  start_date : string;
  end_date : string;
  drug : string;
  drug_name_generic : string;
  formulary_drug_cd : string;
  dose_val_rx : string;
  dose_unit_rx : string;
  route : string }.
End PrescriptionResponse.

Module PatientPortfolioResponse.
Record t : Type := mk {
  patient_id : Z;
  patient_gender : string;
  patient_age : Z;
  patient_dob : string;
  prescriptions : list PrescriptionResponse.t }.
End PatientPortfolioResponse.

Module DiagnosisEntry.
Record t : Type := mk {
  icd9_code : option string;
  short_title : option string;
  long_title : option string;
  hadm_ids : list Z }.
End DiagnosisEntry.

Module AdmissionResponse.
Record t : Type := mk {
  hadm_id : Z;
  admission_time : string;
  discharge_time : string;
  diagnosis : string }.
End AdmissionResponse.

(** ** The handlers *)

Section routes.
(** [str(e)], as the interpreter and the web framework print an exception. *)
Variable exn_str : exn → string.
(** [str.lower]. *)
Variable str_lower : string → string.
(** The store's comparison of an Integer column with a string parameter,
    for a parameter that the store can read as an integer (otherwise the
    query raises in the store, which is not modelled). *)
Variable int_eq_str : Z → string → bool.
(** [(datetime.now() - datetime.strptime(dob, fmt)).days // 365]. *)
Variable age_of_dob : string → result Z.
(** [int(s)]. *)
Variable py_int : string → result Z.
(** [sort_values(by='total_rate', ascending=False)] with the default
    (unstable) sorting kind: which order ties come out in is not fixed. *)
Variable sort_values_desc : list (string * Qc) → list (string * Qc).

(** [try: body  except Exception as e: raise HTTPException(500, str(e))].
    [HTTPException] is an [Exception], so one raised in the body is caught
    as well. *)
Definition except_500 {A : Type} (body : result A) : result A :=
  match body with
  | Return a => Return a
  | Raise e => Raise (HTTPException 500 (exn_str e))
  end.

(** *** /alternative_search *)

Definition subquery (replaced_drug : string) (indication_list : list string)
    (db : Session) : list (option string * option string) :=
  (λ r, (SiderDrugIndications.drug_concept_name r,
         SiderDrugIndications.event_concept_name r)) <$>
  filter (λ r,
      sql_in (SiderDrugIndications.event_concept_name r) indication_list
      ∧ sql_ne (SiderDrugIndications.event_concept_name r) "Sudden death"
      ∧ sql_ne (SiderDrugIndications.drug_concept_name r) replaced_drug
      ∧ is_Some (SiderDrugIndications.drug_concept_name r))
    (sider_drug_indications db).

(** [func.count(column)] over the group of [d]: the group's rows whose
    column is not NULL. *)
Definition func_count (d : option string)
    (sub : list (option string * option string)) : nat :=
  length (filter (λ p, p.1 = d ∧ is_Some p.2) sub).

(** GROUP BY drug_concept_name HAVING count(event_concept_name) = n, DISTINCT. *)
Definition group_by_having (sub : list (option string * option string)) (n : nat)
    : list (option string) :=
  filter (λ d, func_count d sub = n) (remove_dups (fst <$> sub)).

Definition alternative_search (replaced_drug : string)
    (indication_list : list string) (db : Session)
    : result (list AlternativeDrug.t) :=
  except_500 (
    let alternative_drugs :=
      group_by_having (subquery replaced_drug indication_list db)
        (length indication_list) in
    match alternative_drugs with
    | _ :: _ => Return (AlternativeDrug.mk <$> alternative_drugs)
    | [] => Return []
    end).

(** *** /ancestor_side_effects *)

(** One turn of the grouping loop: create the key with an empty list when it
    is new, then append. *)
Definition append_ancestor (result : gmap string (list string))
    (mapping : PTtoHLTMapping.t) : gmap string (list string) :=
  let key := PTtoHLTMapping.descendant_concept_name mapping in
  let result :=
    if decide (is_Some (result !! key)) then result else <[key := []]> result in
  <[key := (default [] (result !! key)
            ++ [PTtoHLTMapping.ancestor_concept_name mapping])%list]> result.

(** ['/'.join(list(set(value)))]: the set is a [gset], listed in the order
    [elements] gives (an order the caller cannot rely on). *)
Definition join_set (value : list string) : string :=
  String.concat "/" (elements (list_to_set value : gset string)).

Definition get_ancestor_side_effects (pt_list : list string) (db : Session)
    : result (gmap string string) :=
  except_500 (
    let side_effects :=
      filter (λ m, PTtoHLTMapping.descendant_concept_name m ∈ pt_list)
        (pt_to_hlt_or_hlgt db) in
    let descendant_names := PTtoHLTMapping.descendant_concept_name <$> side_effects in
    let ancestor_mappings :=
      filter (λ m, PTtoHLTMapping.descendant_concept_name m ∈ descendant_names
                   ∧ PTtoHLTMapping.ancestor_concept_class_id m = "HLGT")
        (pt_to_hlt_or_hlgt db) in
    let result := foldl append_ancestor ∅ ancestor_mappings in
    Return (join_set <$> result)).

(** *** /culprit_drug *)

Definition culprit_rows (side_effect : string) (drug_list : list string)
    (db : Session) : list BarklaData.t :=
  filter (λ r, BarklaData.side_effect r = side_effect
               ∧ BarklaData.drug_name r ∈ drug_list)
    (barkla_weighted_rate db).

Definition culprit_entry (scored : BarklaData.t * Qc) : CulpritEntry.t :=
  CulpritEntry.mk (BarklaData.drug_name scored.1)
    (BarklaData.combined_rate scored.1) scored.2.

Definition get_culprit_drug (side_effect : string) (drug_list : list string)
    (db : Session) : result (list CulpritEntry.t) :=
  except_500 (
    let drug_list := str_lower <$> drug_list in
    let side_effect := str_lower side_effect in
    let barkla_data := culprit_rows side_effect drug_list db in
    match barkla_data with
    | [] => Return []
    | _ :: _ =>
        let total_combined_rate := py_sum (BarklaData.combined_rate <$> barkla_data) in
        scored ← for_each (λ row,
            score ← py_truediv (BarklaData.combined_rate row) total_combined_rate;
            Return (row, score)) barkla_data;
        let ranked_drugs := stable_sort score_before scored in
        Return (culprit_entry <$> ranked_drugs)
    end).

(** *** /most_likely_side_effects *)

Definition get_most_likely_side_effect (drug_list : list string) (db : Session)
    : result (list SideEffectEntry.t) :=
  except_500 (
    let drug_list := str_lower <$> drug_list in
    let barkla_data :=
      filter (λ r, BarklaData.drug_name r ∈ drug_list) (barkla_weighted_rate db) in
    match barkla_data with
    | [] => Return []
    | _ :: _ =>
        barkla_data ← set_columns 3
          ["drug_name"; "side_effect"; "combined_rate"] barkla_data;
        let side_effects_rates := reset_index (groupby_sum barkla_data) in
        let side_effects_rates := sort_values_desc side_effects_rates in
        let top_side_effects := take 10 side_effects_rates in
        for_each (λ row,
            let side_effect := row.1 in
            let total_rate := row.2 in
            let contributing_drug_data :=
              filter (λ r, BarklaData.side_effect r = side_effect) barkla_data in
            most_likely ← idxmax contributing_drug_data;
            Return (SideEffectEntry.mk side_effect total_rate
                      (BarklaData.drug_name most_likely)))
          top_side_effects
    end).

(** *** /most_likely_side_effects_faers *)

Definition faers_rows (drug_list : list string) (db : Session) : list FAERSData.t :=
  filter (λ r, FAERSData.drug_name r ∈ drug_list) (faers_counts_2024 db).

Definition get_most_likely_side_effect_faers (drug_list : list string)
    (db : Session) : result (list FAERSData.t) :=
  except_500 (
    let drug_list := str_lower <$> drug_list in
    let faers_data := faers_rows drug_list db in
    faers_data ← set_columns 6
      ["drug_name"; "side_effect"; "drug_side_effect_occurrence_count";
       "case_count_with_drug"; "rate"; "wilson_interval"] faers_data;
    let faers_data := stable_sort faers_before faers_data in
    let top_results := groupby_head 5 faers_data in
    Return top_results).

(** *** /patient_portfolio_mimic *)

Definition find_patient (patient_id : string) (db : Session) : option Patient.t :=
  head (filter (λ p, int_eq_str (Patient.SUBJECT_ID p) patient_id = true) (patients db)).

Definition prescription_response (p : Prescription.t) : PrescriptionResponse.t :=
  PrescriptionResponse.mk
    (or_empty (Prescription.STARTDATE p))
    (or_empty (Prescription.ENDDATE p))
    (or_empty (Prescription.DRUG p))
    (or_empty (Prescription.DRUG_NAME_GENERIC p))
    (or_empty (Prescription.FORMULARY_DRUG_CD p))
    (or_empty (Prescription.DOSE_VAL_RX p))
    (or_empty (Prescription.DOSE_UNIT_RX p))
    (or_empty (Prescription.ROUTE p)).

(** This handler has no try/except: what it raises leaves it unchanged. *)
Definition get_patient_portfolio_mimic (patient_id : string) (db : Session)
    : result PatientPortfolioResponse.t :=
  match find_patient patient_id db with
  | None =>
      Raise (HTTPException 404 ("Patient with ID " ++ patient_id ++ " not found"))
  | Some patient =>
      age ← age_of_dob (Patient.DOB patient);
      let prescriptions :=
        filter (λ p, int_eq_str (Prescription.SUBJECT_ID p) patient_id = true)
          (prescriptions db) in
      let prescription_list := prescription_response <$> prescriptions in
      pid ← py_int patient_id;
      Return (PatientPortfolioResponse.mk pid (Patient.GENDER patient) age
                (Patient.DOB patient) prescription_list)
  end.

(** *** /patient_diagnoses_mimic *)

Definition patient_diagnoses (patient_id : string) (db : Session) : list Diagnosis.t :=
  filter (λ d, int_eq_str (Diagnosis.SUBJECT_ID d) patient_id = true) (diagnoses db).

Definition titles_of (icd9_codes : list (option string)) (db : Session)
    : gmap (option string) (option string * option string) :=
  foldl (λ m d, <[Some (D_Icd.ICD9_CODE d) := (D_Icd.SHORT_TITLE d, D_Icd.LONG_TITLE d)]> m)
    ∅ (filter (λ d, Some (D_Icd.ICD9_CODE d) ∈ icd9_codes) (d_icd db)).

(** One turn of the loop that collects admission IDs: [if d.HADM_ID and
    d.HADM_ID not in ...] lets through an ID that is neither None nor 0. *)
Definition add_hadm_id (m : gmap (option string) (list Z)) (d : Diagnosis.t)
    : gmap (option string) (list Z) :=
  let key := Diagnosis.ICD9_CODE d in
  let m := if decide (is_Some (m !! key)) then m else <[key := []]> m in
  match Diagnosis.HADM_ID d with
  | Some h =>
      if decide (h ≠ 0%Z ∧ h ∉ default [] (m !! key))
      then <[key := (default [] (m !! key) ++ [h])%list]> m
      else m
  | None => m
  end.

Definition diagnosis_entry
    (icd9_to_titles : gmap (option string) (option string * option string))
    (icd9_to_hadm_ids : gmap (option string) (list Z))
    (icd9_code : option string) : DiagnosisEntry.t :=
  let hadm_ids := default [] (icd9_to_hadm_ids !! icd9_code) in
  match icd9_to_titles !! icd9_code with
  | Some (short_title, long_title) =>
      DiagnosisEntry.mk icd9_code short_title long_title hadm_ids
  | None =>
      DiagnosisEntry.mk icd9_code (Some "Unknown") (Some "Unknown") hadm_ids
  end.

Definition get_patient_diagnoses_mimic (patient_id : string) (db : Session)
    : result (list DiagnosisEntry.t) :=
  except_500 (
    match find_patient patient_id db with
    | None =>
        Raise (HTTPException 404 ("Patient with ID " ++ patient_id ++ " not found"))
    | Some patient =>
        let diagnoses := patient_diagnoses patient_id db in
        let icd9_codes := Diagnosis.ICD9_CODE <$> diagnoses in
        let icd9_to_titles := titles_of icd9_codes db in
        let icd9_to_hadm_ids := foldl add_hadm_id ∅ diagnoses in
        Return (diagnosis_entry icd9_to_titles icd9_to_hadm_ids <$>
                elements (list_to_set icd9_codes : gset (option string)))
    end).

(** *** /admission_details *)

Definition get_admission_details (hadm_id : Z) (db : Session)
    : result AdmissionResponse.t :=
  except_500 (
    match head (filter (λ a, Admission.HADM_ID a = hadm_id) (admissions db)) with
    | None =>
        Raise (HTTPException 404 ("Admission with ID " ++ pretty hadm_id ++ " not found"))
    | Some admission =>
        Return (AdmissionResponse.mk (Admission.HADM_ID admission)
                  (or_empty (Admission.ADMITTIME admission))
                  (or_empty (Admission.DISCHTIME admission))
                  (or_empty (Admission.DIAGNOSIS admission)))
    end).

End routes.

(** ** Inputs used by the examples

    A printer of exceptions (status and detail for an [HTTPException], the
    interpreter's text otherwise), lower-casing of ASCII letters, the decimal
    reading of an integer column, a clock at which every patient is 76, and a
    stable sort for [sort_values]. *)

Definition demo_exn_str (e : exn) : string :=
  match e with
  | HTTPException c d => pretty c ++ ": " ++ d
  | ZeroDivisionError => "float division by zero"
  | ValueError m => m
  end.

Definition ascii_lower (c : ascii) : ascii :=
  let n := nat_of_ascii c in
  if decide (65 ≤ n ≤ 90)%nat then ascii_of_nat (n + 32) else c.

Fixpoint demo_lower (s : string) : string :=
  match s with
  | EmptyString => EmptyString
  | String c s' => String (ascii_lower c) (demo_lower s')
  end.

Definition demo_int_eq_str (z : Z) (s : string) : bool := bool_decide (pretty z = s).

Definition demo_age_of_dob (dob : string) : result Z := Return 76%Z.

Definition demo_py_int (s : string) : result Z :=
  match NilZero.int_of_string s with
  | Some n => Return (Z.of_int n)
  | None => Raise (ValueError "invalid literal for int() with base 10")
  end.

Definition total_rate_ge (a b : string * Qc) : Prop := (b.2 ≤ a.2)%Qc.

#[global] Instance total_rate_ge_dec a b : Decision (total_rate_ge a b).
Proof. unfold total_rate_ge. apply _. Defined.

Definition demo_sort_values_desc : list (string * Qc) → list (string * Qc) :=
  merge_sort total_rate_ge.

Definition rate (n : Z) (d : positive) : Qc := Q2Qc (n # d).

Definition demo_db : Session := {|
  sider_drug_indications := [
    SiderDrugIndications.mk (Some "ibuprofen") (Some "Pain");
    SiderDrugIndications.mk (Some "ibuprofen") (Some "Fever");
    SiderDrugIndications.mk (Some "paracetamol") (Some "Pain");
    SiderDrugIndications.mk (Some "aspirin") (Some "Pain");
    SiderDrugIndications.mk None (Some "Pain");
    SiderDrugIndications.mk (Some "aspirin") (Some "Fever")];
  pt_to_hlt_or_hlgt := [
    PTtoHLTMapping.mk "Headache" "Headaches" "HLGT";
    PTtoHLTMapping.mk "Headache" "Neurological disorders NEC" "HLGT";
    PTtoHLTMapping.mk "Headache" "Headaches" "HLGT";
    PTtoHLTMapping.mk "Headache" "Headaches NEC" "HLT";
    PTtoHLTMapping.mk "Dizziness" "Neurological signs and symptoms NEC" "HLT"];
  barkla_weighted_rate := [
    BarklaData.mk "headache" "aspirin" (rate 1 10);
    BarklaData.mk "headache" "ibuprofen" (rate 3 10);
    BarklaData.mk "nausea" "aspirin" (rate 2 10);
    BarklaData.mk "headache" "warfarin" (rate 1 10);
    BarklaData.mk "rash" "warfarin" (rate 0 1)];
  faers_counts_2024 := [
    FAERSData.mk "warfarin" "haemorrhage" 1 10 (rate 1 10) (rate 1 100);
    FAERSData.mk "aspirin" "nausea" 2 10 (rate 2 10) (rate 1 100);
    FAERSData.mk "aspirin" "headache" 5 10 (rate 5 10) (rate 1 100);
    FAERSData.mk "aspirin" "rash" 2 10 (rate 2 10) (rate 1 100);
    FAERSData.mk "aspirin" "dizziness" 1 10 (rate 1 10) (rate 1 100);
    FAERSData.mk "aspirin" "tinnitus" 7 10 (rate 7 10) (rate 1 100);
    FAERSData.mk "aspirin" "dyspepsia" 9 10 (rate 9 10) (rate 1 100);
    FAERSData.mk "aspirin" "asthma" 3 10 (rate 3 10) (rate 1 100)];
  patients := [Patient.mk 1 "F" "1950-01-01 00:00:00"];
  prescriptions := [];
  diagnoses := [
    Diagnosis.mk 1 (Some 100%Z) (Some "4019");
    Diagnosis.mk 1 (Some 0%Z) (Some "4019");
    Diagnosis.mk 1 (Some 100%Z) (Some "4019");
    Diagnosis.mk 1 None (Some "25000");
    Diagnosis.mk 2 (Some 7%Z) (Some "4019")];
  d_icd := [
    D_Icd.mk "4019" (Some "Hypertension NOS")
      (Some "Unspecified essential hypertension")];
  admissions := [Admission.mk 100 (Some "2100-01-01 10:00:00") None (Some "SEPSIS")] |}.

(** ** The quantities the claims speak of *)

(** The texts that the store reads as a value of an Integer column: the
    decimal writing of a 32-bit integer. Comparing the column with any other
    text makes the store raise instead of answering, an outcome that
    [int_eq_str] does not have; what is stated about an identifier that
    matches no row is stated for these texts. *)
Definition integer_text (s : string) : Prop :=
  ∃ z : Z, (- 2 ^ 31 ≤ z < 2 ^ 31)%Z ∧ s = pretty z.

(** The rows of the indication table that count for drug [d]: its rows whose
    indication is in the required list and is not the excluded event. *)
Definition matching_row_count (d : string) (indication_list : list string)
    (db : Session) : nat :=
  length (filter (λ r,
      SiderDrugIndications.drug_concept_name r = Some d
      ∧ sql_in (SiderDrugIndications.event_concept_name r) indication_list
      ∧ sql_ne (SiderDrugIndications.event_concept_name r) "Sudden death")
    (sider_drug_indications db)).

(** The culprit entries in retrieval order: each retrieved row with its share
    of the total. *)
Definition retrieved_entries (rows : list BarklaData.t) : list CulpritEntry.t :=
  let total := py_sum (BarklaData.combined_rate <$> rows) in
  (λ row, CulpritEntry.mk (BarklaData.drug_name row) (BarklaData.combined_rate row)
            (BarklaData.combined_rate row / total)%Qc) <$> rows.

(** The entry that the loop of /most_likely_side_effects builds for one row
    of the top list, when the row's group is not empty. *)
Definition side_effect_entry (barkla_data : list BarklaData.t) (row : string * Qc)
    : SideEffectEntry.t :=
  SideEffectEntry.mk row.1 row.2
    match filter (λ r, BarklaData.side_effect r = row.1) barkla_data with
    | [] => ""
    | r :: g => BarklaData.drug_name (idxmax_from r g)
    end.

(** What the admission list of code [k] holds after the rows [ds]: no
    repetition, and exactly the non-zero admission IDs of the rows of [k]. *)
Definition hadm_ids_of (ds : list Diagnosis.t) (k : option string) (l : list Z) : Prop :=
  NoDup l
  ∧ ∀ h, h ∈ l ↔
         h ≠ 0%Z ∧ ∃ d, d ∈ ds ∧ Diagnosis.ICD9_CODE d = k ∧ Diagnosis.HADM_ID d = Some h.

(** Ascending drug name, and non-increasing rate under one drug name. *)
Definition faers_ordered (a b : FAERSData.t) : Prop :=
  strict String.le (FAERSData.drug_name a) (FAERSData.drug_name b)
  ∨ (FAERSData.drug_name a = FAERSData.drug_name b
     ∧ (FAERSData.rate b ≤ FAERSData.rate a)%Qc).


(** ** The other tables and handlers of routes.py

    The interaction and side-effect compendia are read by the listing and
    interaction handlers only; [Store] adds them to the session. *)

Module AllDrugDrugInteractions.
Record t : Type := mk {
  id : Z;
  drug_a_concept_name : option string;
  drug_b_concept_name : option string;
  event_concept_name : option string }.
End AllDrugDrugInteractions.

Module SingleDrugPositiveControls.
Record t : Type := mk {
  drug_concept_name : option string;
  event_concept_name : option string;
  frequency : option string;
  source : option string }.
End SingleDrugPositiveControls.

Record Store : Type := mkStore {
  session : Session;
  all_drug_drug_interactions : list AllDrugDrugInteractions.t;
  single_drug_positive_controls : list SingleDrugPositiveControls.t }.

(** [set(names)] followed by [discard(None)]: the set of the non-null names. *)
Definition non_null_set (names : list (option string)) : gset string :=
  list_to_set (omap id names).

(** One turn of the loop of /indications: create the key with an empty list
    when it is new, then append the row. *)
Definition append_indication
    (result : gmap (option string) (list SiderDrugIndications.t))
    (indication : SiderDrugIndications.t)
    : gmap (option string) (list SiderDrugIndications.t) :=
  let key := SiderDrugIndications.drug_concept_name indication in
  let result :=
    if decide (is_Some (result !! key)) then result else <[key := []]> result in
  <[key := (default [] (result !! key) ++ [indication])%list]> result.

Section more_routes.
Variable exn_str : exn → string.

(** *** /drug_names: the names of the single-drug table are read and left
    out of the union (the sum is commented out in the source). *)
Definition get_drug_names (db : Store) : result (list string) :=
  except_500 exn_str (
    let drug_a_names :=
      remove_dups (AllDrugDrugInteractions.drug_a_concept_name <$>
                   all_drug_drug_interactions db) in
    let drug_b_names :=
      remove_dups (AllDrugDrugInteractions.drug_b_concept_name <$>
                   all_drug_drug_interactions db) in
    let single_drug_names :=
      remove_dups (SingleDrugPositiveControls.drug_concept_name <$>
                   single_drug_positive_controls db) in
    let all_drug_names := non_null_set (drug_a_names ++ drug_b_names)%list in
    Return (elements all_drug_names)).

(** *** /side_effects_names: [list(set(hlgt))] lists the keys of the mapping
    that the ancestor resolver returns. *)
Definition get_side_effect_names (db : Store) : result (list string) :=
  except_500 exn_str (
    let side_effects :=
      remove_dups (SingleDrugPositiveControls.event_concept_name <$>
                   single_drug_positive_controls db) in
    let side_effects := non_null_set side_effects in
    hlgt ← get_ancestor_side_effects exn_str (elements side_effects) (session db);
    Return (elements (dom hlgt))).

(** *** /barkla_side_effects_names (the second [get_side_effect_names] of the
    module) *)
Definition get_side_effect_names_barkla (db : Session) : result (list string) :=
  except_500 exn_str (
    let side_effects :=
      remove_dups (BarklaData.side_effect <$> barkla_weighted_rate db) in
    let side_effects : gset string := list_to_set side_effects in
    let side_effects := merge_sort String.le (elements side_effects) in
    Return side_effects).

(** *** /interactions *)
Definition get_interactions (drug_list : list string) (db : Store)
    : result (list AllDrugDrugInteractions.t) :=
  except_500 exn_str (
    Return (filter (λ r,
        sql_in (AllDrugDrugInteractions.drug_a_concept_name r) drug_list
        ∧ sql_in (AllDrugDrugInteractions.drug_b_concept_name r) drug_list)
      (all_drug_drug_interactions db))).

(** *** /alternative_interactions ([column == value] is true only for a
    non-NULL column holding the value) *)
Definition alternative_interactions (replaced_drug replacement_drug : string)
    (drug_list : list string) (db : Store)
    : result (list AllDrugDrugInteractions.t) :=
  except_500 exn_str (
    Return (filter (λ r,
        sql_ne (AllDrugDrugInteractions.drug_a_concept_name r) replaced_drug
        ∧ sql_ne (AllDrugDrugInteractions.drug_b_concept_name r) replaced_drug
        ∧ ((AllDrugDrugInteractions.drug_a_concept_name r = Some replacement_drug
            ∧ sql_in (AllDrugDrugInteractions.drug_b_concept_name r) drug_list)
           ∨ (AllDrugDrugInteractions.drug_b_concept_name r = Some replacement_drug
              ∧ sql_in (AllDrugDrugInteractions.drug_a_concept_name r) drug_list)))
      (all_drug_drug_interactions db))).

(** *** /single_drug_indications *)
Definition get_single_drug_indications (drug_name : string) (db : Session)
    : result (list SiderDrugIndications.t) :=
  except_500 exn_str (
    Return (filter (λ r,
        SiderDrugIndications.drug_concept_name r = Some drug_name
        ∧ sql_ne (SiderDrugIndications.event_concept_name r) "Sudden death")
      (sider_drug_indications db))).

(** *** /indications *)
Definition get_indications (drug_list : list string) (db : Session)
    : result (gmap (option string) (list SiderDrugIndications.t)) :=
  except_500 exn_str (
    let indications :=
      filter (λ r,
          sql_in (SiderDrugIndications.drug_concept_name r) drug_list
          ∧ sql_ne (SiderDrugIndications.event_concept_name r) "Sudden death")
        (sider_drug_indications db) in
    let result := foldl append_indication ∅ indications in
    Return result).

End more_routes.

Definition demo_store : Store := {|
  session := demo_db;
  all_drug_drug_interactions := [
    AllDrugDrugInteractions.mk 1 (Some "aspirin") (Some "warfarin") (Some "Haemorrhage");
    AllDrugDrugInteractions.mk 2 (Some "ibuprofen") (Some "warfarin") (Some "Haemorrhage");
    AllDrugDrugInteractions.mk 3 (Some "omeprazole") (Some "ibuprofen") (Some "Nausea");
    AllDrugDrugInteractions.mk 4 (Some "aspirin") (Some "ibuprofen") (Some "Ulcer");
    AllDrugDrugInteractions.mk 5 None (Some "ibuprofen") (Some "Rash")];
  single_drug_positive_controls := [
    SingleDrugPositiveControls.mk (Some "aspirin") (Some "Headache")
      (Some "Common") (Some "BNF");
    SingleDrugPositiveControls.mk (Some "metformin") (Some "Dizziness")
      (Some "Rare") (Some "BNF");
    SingleDrugPositiveControls.mk (Some "aspirin") None None (Some "BNF")] |}.

(** A session whose weighted-rate table holds eleven side effects of one
    drug, with rates 1/100, ..., 11/100. *)
Definition eleven_effects_db : Session := {|
  sider_drug_indications := [];
  pt_to_hlt_or_hlgt := [];
  barkla_weighted_rate :=
    (λ i : nat, BarklaData.mk ("effect " ++ pretty i) "aspirin"
                  (rate (Z.of_nat i) 100)) <$> seq 1 11;
  faers_counts_2024 := [];
  patients := [];
  prescriptions := [];
  diagnoses := [];
  d_icd := [];
  admissions := [] |}.

(** A session with one patient and no diagnosis row of hers. *)
Definition demo_db_no_diagnoses : Session := {|
  sider_drug_indications := [];
  pt_to_hlt_or_hlgt := [];
  barkla_weighted_rate := [];
  faers_counts_2024 := [];
  patients := [Patient.mk 1 "F" "1950-01-01 00:00:00"];
  prescriptions := [];
  diagnoses := [Diagnosis.mk 2 (Some 7%Z) (Some "4019")];
  d_icd := [];
  admissions := [] |}.
(** * Auxiliary lemmas *)

(** ** Lists *)

Lemma length_filter_ext {A} (P Q : A → Prop) `{!∀ x, Decision (P x)}
    `{!∀ x, Decision (Q x)} (l : list A) :
  (∀ x, x ∈ l → P x ↔ Q x) → length (filter P l) = length (filter Q l).
Proof.
  induction l as [|x l IH]; intros HPQ; [done|].
  rewrite !filter_cons.
  assert (length (filter P l) = length (filter Q l)) as Hl.
  { apply IH. intros y Hy. apply HPQ. by right. }
  pose proof (HPQ x ltac:(left)) as Hx.
  destruct (decide (P x)), (decide (Q x)); simpl; tauto || lia.
Qed.

Lemma filter_fmap_comm {A B} (f : A → B) (P : B → Prop)
    `{!∀ y, Decision (P y)} (l : list A) :
  filter P (f <$> l) = f <$> filter (λ x, P (f x)) l.
Proof.
  induction l as [|x l IH]; [done|].
  rewrite fmap_cons, !filter_cons. destruct (decide (P (f x))); simpl; by rewrite IH.
Qed.

Lemma filter_nonempty_elem {A} (P : A → Prop) `{!∀ x, Decision (P x)} (l : list A) :
  filter P l ≠ [] ↔ ∃ x, x ∈ l ∧ P x.
Proof.
  split.
  - destruct (filter P l) as [|x l'] eqn:E; [done|]. intros _.
    assert (x ∈ filter P l) as Hx by (rewrite E; left).
    apply list_elem_of_filter in Hx as [? ?]. eauto.
  - intros (x & Hx & HP) E.
    assert (x ∈ filter P l) as Hin by (apply list_elem_of_filter; done).
    rewrite E in Hin. by apply not_elem_of_nil in Hin.
Qed.

Lemma StronglySorted_sublist {A} (R : relation A) (k l : list A) :
  sublist k l → StronglySorted R l → StronglySorted R k.
Proof.
  induction 1 as [|x k l Hkl IH|x k l Hkl IH]; intros Hs; [done|..].
  - apply StronglySorted_inv in Hs as [Hs Hall]. constructor; [by apply IH|].
    eapply Forall_forall. intros y Hy. rewrite Forall_forall in Hall.
    apply Hall. by eapply (sublist_subseteq k l).
  - apply StronglySorted_inv in Hs as [Hs _]. by apply IH.
Qed.

(** ** Loops that cannot fail *)

Lemma for_each_total {A B} (body : A → result B) (g : A → B) (l : list A) :
  (∀ x, x ∈ l → body x = Return (g x)) → for_each body l = Return (g <$> l).
Proof.
  induction l as [|x l IH]; intros Hb; [done|]. simpl.
  rewrite (Hb x) by left. rewrite IH; [done|].
  intros y Hy. apply Hb. by right.
Qed.

(** ** Sums *)

Lemma foldl_Qcplus_acc (a : Qc) (xs : list Qc) :
  foldl Qcplus a xs = (a + py_sum xs)%Qc.
Proof.
  unfold py_sum. revert a. induction xs as [|x xs IH]; intros a; simpl.
  - by rewrite Qcplus_0_r.
  - rewrite IH, (IH (0 + x)%Qc). ring.
Qed.

Lemma py_sum_nil : py_sum [] = 0%Qc.
Proof. done. Qed.

Lemma py_sum_cons (x : Qc) (xs : list Qc) : py_sum (x :: xs) = (x + py_sum xs)%Qc.
Proof. unfold py_sum at 1. simpl. rewrite foldl_Qcplus_acc. ring. Qed.

Lemma py_sum_snoc (xs : list Qc) (x : Qc) : py_sum (xs ++ [x]) = (py_sum xs + x)%Qc.
Proof. unfold py_sum. by rewrite foldl_app. Qed.

Lemma py_sum_perm (xs ys : list Qc) : xs ≡ₚ ys → py_sum xs = py_sum ys.
Proof.
  induction 1 as [|x xs ys _ IH|x y xs|xs ys zs _ IH1 _ IH2].
  - done.
  - by rewrite !py_sum_cons, IH.
  - rewrite !py_sum_cons. ring.
  - by rewrite IH1.
Qed.

Lemma py_sum_div (t : Qc) (xs : list Qc) :
  py_sum ((λ x, x / t)%Qc <$> xs) = (py_sum xs / t)%Qc.
Proof.
  induction xs as [|x xs IH].
  - rewrite fmap_nil, py_sum_nil. unfold Qcdiv. ring.
  - rewrite fmap_cons, !py_sum_cons, IH. unfold Qcdiv. ring.
Qed.

(** ** The stable sort *)

Section stable_sort_facts.
Context {A : Type} (before : A → A → Prop) `{!∀ y x, Decision (before y x)}.

Lemma stable_insert_perm (x : A) (l : list A) : stable_insert before x l ≡ₚ x :: l.
Proof.
  induction l as [|y l IH]; simpl; [done|].
  destruct (decide (before y x)); [|done].
  rewrite IH. apply Permutation_swap.
Qed.

Lemma stable_sort_perm (l : list A) : stable_sort before l ≡ₚ l.
Proof.
  induction l as [|x l IH]; simpl; [done|].
  by rewrite stable_insert_perm, IH.
Qed.

(** Elements of one class of [before]-unordered elements keep their order. *)
Lemma stable_insert_filter (P : A → Prop) `{!∀ x, Decision (P x)} (x : A) (l : list A) :
  (∀ a b, P a → P b → ¬ before a b) →
  filter P (stable_insert before x l) = filter P (x :: l).
Proof.
  intros Hcls. induction l as [|y l IH]; simpl; [done|].
  destruct (decide (before y x)) as [Hyx|Hyx]; [|done].
  rewrite filter_cons, IH, !filter_cons.
  destruct (decide (P y)) as [Hy|Hy], (decide (P x)) as [Hx|Hx]; try done.
  by destruct (Hcls y x).
Qed.

Lemma stable_sort_filter (P : A → Prop) `{!∀ x, Decision (P x)} (l : list A) :
  (∀ a b, P a → P b → ¬ before a b) →
  filter P (stable_sort before l) = filter P l.
Proof.
  intros Hcls. induction l as [|x l IH]; simpl; [done|].
  rewrite stable_insert_filter by done. by rewrite !filter_cons, IH.
Qed.

Hypothesis before_asym : ∀ x y, before x y → ¬ before y x.
Hypothesis before_negtrans : ∀ x y z, ¬ before y x → ¬ before z y → ¬ before z x.

Lemma stable_insert_sorted (x : A) (l : list A) :
  StronglySorted (λ a b, ¬ before b a) l →
  StronglySorted (λ a b, ¬ before b a) (stable_insert before x l).
Proof.
  induction l as [|y l IH]; simpl; intros Hs.
  - repeat constructor.
  - apply StronglySorted_inv in Hs as [Hs Hy].
    destruct (decide (before y x)) as [Hyx|Hyx].
    + constructor; [by apply IH|].
      rewrite stable_insert_perm. constructor; [by apply before_asym|done].
    + constructor; [by constructor|]. constructor; [done|].
      eapply Forall_impl; [exact Hy|]. intros z Hz. simpl in *.
      by eapply before_negtrans.
Qed.

Lemma stable_sort_sorted (l : list A) :
  StronglySorted (λ a b, ¬ before b a) (stable_sort before l).
Proof.
  induction l as [|x l IH]; simpl; [constructor|]. by apply stable_insert_sorted.
Qed.

End stable_sort_facts.

(** ** /culprit_drug: the two ways out of the scoring loop *)

Section culprit_facts.
Variable exn_str : exn → string.
Variable str_lower : string → string.

Lemma score_before_asym (x y : BarklaData.t * Qc) :
  score_before x y → ¬ score_before y x.
Proof. unfold score_before. intros H1 H2. by eapply Qclt_not_le, Qclt_le_weak. Qed.

Lemma score_before_negtrans (x y z : BarklaData.t * Qc) :
  ¬ score_before y x → ¬ score_before z y → ¬ score_before z x.
Proof.
  unfold score_before. rewrite <- !Qcle_ngt. intros H1 H2. by eapply Qcle_trans.
Qed.

Lemma culprit_entries_fmap (rows : list BarklaData.t) :
  culprit_entry <$>
    ((λ row, (row, (BarklaData.combined_rate row
                    / py_sum (BarklaData.combined_rate <$> rows))%Qc)) <$> rows)
  = retrieved_entries rows.
Proof. unfold retrieved_entries. by rewrite <- list_fmap_compose. Qed.

Lemma get_culprit_drug_return side_effect drug_list db :
  let rows := culprit_rows (str_lower side_effect) (str_lower <$> drug_list) db in
  let total := py_sum (BarklaData.combined_rate <$> rows) in
  total ≠ 0%Qc →
  get_culprit_drug exn_str str_lower side_effect drug_list db
  = Return (culprit_entry <$> stable_sort score_before
      ((λ row, (row, (BarklaData.combined_rate row / total)%Qc)) <$> rows)).
Proof.
  intros rows total Htotal. unfold get_culprit_drug. fold rows.
  destruct rows as [|r rs] eqn:E; [done|]. fold total.
  rewrite (for_each_total _
    (λ row, (row, (BarklaData.combined_rate row / total)%Qc))).
  - done.
  - intros x _. unfold py_truediv. by rewrite decide_False.
Qed.

Lemma get_culprit_drug_raise side_effect drug_list db :
  let rows := culprit_rows (str_lower side_effect) (str_lower <$> drug_list) db in
  rows ≠ [] →
  py_sum (BarklaData.combined_rate <$> rows) = 0%Qc →
  get_culprit_drug exn_str str_lower side_effect drug_list db
  = Raise (HTTPException 500 (exn_str ZeroDivisionError)).
Proof.
  intros rows Hne Htotal. unfold get_culprit_drug. fold rows.
  destruct rows as [|r rs] eqn:E; [done|].
  rewrite Htotal. cbn [for_each]. unfold py_truediv. by rewrite decide_True.
Qed.

Lemma get_culprit_drug_inv side_effect drug_list db l :
  let rows := culprit_rows (str_lower side_effect) (str_lower <$> drug_list) db in
  let total := py_sum (BarklaData.combined_rate <$> rows) in
  get_culprit_drug exn_str str_lower side_effect drug_list db = Return l →
  (rows = [] ∧ l = [])
  ∨ (total ≠ 0%Qc
     ∧ l = culprit_entry <$> stable_sort score_before
         ((λ row, (row, (BarklaData.combined_rate row / total)%Qc)) <$> rows)).
Proof.
  intros rows total Hret.
  destruct (decide (rows = [])) as [Hnil|Hne].
  - left. split; [done|]. unfold get_culprit_drug in Hret. fold rows in Hret.
    rewrite Hnil in Hret. simpl in Hret. congruence.
  - right. destruct (decide (total = 0%Qc)) as [Hz|Hnz].
    + rewrite get_culprit_drug_raise in Hret by done. discriminate.
    + split; [done|]. rewrite get_culprit_drug_return in Hret by done.
      by injection Hret as <-.
Qed.

End culprit_facts.

(** ** /most_likely_side_effects: grouping, and the first maximum *)

Lemma py_sum_singleton (x : Qc) : py_sum [x] = x.
Proof. unfold py_sum. simpl. by rewrite Qcplus_0_l. Qed.

Lemma groupby_sum_lookup (rows : list BarklaData.t) (k : string) :
  groupby_sum rows !! k =
    match filter (λ r, BarklaData.side_effect r = k) rows with
    | [] => None
    | r :: g => Some (py_sum (BarklaData.combined_rate <$> r :: g))
    end.
Proof.
  induction rows as [|r rows IH] using rev_ind; [done|].
  unfold groupby_sum in *. rewrite foldl_app. simpl.
  rewrite filter_app, filter_cons, filter_nil.
  destruct (decide (BarklaData.side_effect r = k)) as [<-|Hne].
  - rewrite lookup_insert_eq, IH.
    destruct (filter _ rows) as [|r0 g]; simpl.
    + by rewrite py_sum_singleton, Qcplus_0_l.
    + by rewrite <- py_sum_snoc, fmap_app.
  - rewrite lookup_insert_ne by done. rewrite IH, app_nil_r. done.
Qed.

Lemma elem_of_reset_index (groups : gmap string Qc) (k : string) (v : Qc) :
  (k, v) ∈ reset_index groups ↔ groups !! k = Some v.
Proof.
  unfold reset_index. rewrite merge_sort_Permutation. apply elem_of_map_to_list.
Qed.

Lemma idxmax_from_first_max (l pre mid : list BarklaData.t) (best : BarklaData.t) :
  Forall (λ x, (BarklaData.combined_rate x < BarklaData.combined_rate best)%Qc) pre →
  Forall (λ x, (BarklaData.combined_rate x ≤ BarklaData.combined_rate best)%Qc) mid →
  ∃ pre' post',
    (pre ++ best :: mid ++ l)%list = (pre' ++ idxmax_from best l :: post')%list
    ∧ Forall (λ x, (BarklaData.combined_rate x
                    < BarklaData.combined_rate (idxmax_from best l))%Qc) pre'
    ∧ Forall (λ x, (BarklaData.combined_rate x
                    ≤ BarklaData.combined_rate (idxmax_from best l))%Qc) post'.
Proof.
  revert pre mid best. induction l as [|r l IH]; intros pre mid best Hpre Hmid; simpl.
  - exists pre, mid. by rewrite app_nil_r.
  - destruct (decide (BarklaData.combined_rate best < BarklaData.combined_rate r)%Qc)
      as [Hlt|Hge].
    + destruct (IH (pre ++ best :: mid)%list [] r) as (pre' & post' & Heq & H1 & H2).
      * apply Forall_app. split; [|constructor; [done|]].
        -- eapply Forall_impl; [exact Hpre|]. intros x Hx. eapply Qclt_trans; [exact Hx|exact Hlt].
        -- eapply Forall_impl; [exact Hmid|]. intros x Hx. eapply Qcle_lt_trans; [exact Hx|exact Hlt].
      * constructor.
      * exists pre', post'. split; [|done]. rewrite <- Heq. simpl.
        by rewrite <- app_assoc.
    + destruct (IH pre (mid ++ [r])%list best) as (pre' & post' & Heq & H1 & H2).
      * done.
      * apply Forall_app. split; [done|]. constructor; [|constructor].
        by apply Qcnot_lt_le.
      * exists pre', post'. split; [|done]. rewrite <- Heq.
        by rewrite <- app_assoc.
Qed.

Section most_likely_facts.
Variable exn_str : exn → string.
Variable str_lower : string → string.
Variable sort_values_desc : list (string * Qc) → list (string * Qc).
Hypothesis sort_values_desc_perm : ∀ l, sort_values_desc l ≡ₚ l.

Lemma get_most_likely_side_effect_return (drug_list : list string) (db : Session) :
  let rows := filter (λ r, BarklaData.drug_name r ∈ str_lower <$> drug_list)
                (barkla_weighted_rate db) in
  get_most_likely_side_effect exn_str str_lower sort_values_desc drug_list db
  = Return (side_effect_entry rows <$>
            take 10 (sort_values_desc (reset_index (groupby_sum rows)))).
Proof.
  intros rows. unfold get_most_likely_side_effect. fold rows.
  destruct rows as [|r0 rs] eqn:E.
  { assert (sort_values_desc (reset_index (groupby_sum [])) = []) as ->; [|done].
    apply Permutation_nil_r. by rewrite sort_values_desc_perm. }
  cbn [set_columns length decide]. simpl mbind at 1.
  unfold except_500.
  rewrite (for_each_total _ (side_effect_entry (r0 :: rs))); [done|].
  intros [k v] Hin. simpl.
  apply (sublist_subseteq _ _ (sublist_take _ _)) in Hin.
  rewrite sort_values_desc_perm in Hin.
  apply elem_of_reset_index in Hin. rewrite groupby_sum_lookup in Hin.
  unfold side_effect_entry. simpl.
  destruct (filter _ (r0 :: rs)) as [|r g]; [done|]. done.
Qed.

End most_likely_facts.

(** ** /most_likely_side_effects_faers: the sort order and the per-group cut *)

Lemma faers_not_before_ordered (a b : FAERSData.t) :
  ¬ faers_before b a ↔ faers_ordered a b.
Proof.
  unfold faers_before, faers_ordered, strict.
  destruct (decide (FAERSData.drug_name a = FAERSData.drug_name b)) as [Heq|Hne].
  - rewrite Heq. split.
    + intros Hnb. right. split; [done|]. apply Qcnot_lt_le. intros Hlt.
      apply Hnb. by right.
    + intros [[Hle Hnle]|[_ Hle]] [[_ Hnle']|[_ Hlt]]; try done.
      by apply Qcle_not_lt in Hle.
  - split.
    + intros Hnb. left.
      destruct (total String.le (FAERSData.drug_name a) (FAERSData.drug_name b))
        as [Hab|Hba].
      * split; [done|]. intros Hba. apply Hne. by apply (anti_symm String.le).
      * exfalso. apply Hnb. left. split; [done|]. intros Hab. apply Hne.
        by apply (anti_symm String.le).
    + intros [[Hle Hnle]|[Heq _]] [[Hle' _]|[Heq' _]]; done.
Qed.

Lemma faers_ordered_trans (a b c : FAERSData.t) :
  faers_ordered a b → faers_ordered b c → faers_ordered a c.
Proof.
  unfold faers_ordered, strict.
  intros [[Hab Hnba]|[Eab Hrab]] [[Hbc Hncb]|[Ebc Hrbc]].
  - left. split; [by etrans|]. intros Hca. apply Hnba. by etrans.
  - left. rewrite <- Ebc. done.
  - left. rewrite Eab. done.
  - right. split; [congruence|]. by eapply Qcle_trans.
Qed.

Lemma faers_before_asym (x y : FAERSData.t) : faers_before x y → ¬ faers_before y x.
Proof.
  unfold faers_before, strict.
  intros [[Hle Hnle]|[Heq Hlt]] [[Hle' Hnle']|[Heq' Hlt']]; try done.
  - apply Hnle. by rewrite Heq'.
  - apply Hnle'. by rewrite Heq.
  - by eapply Qclt_not_le, Qclt_le_weak.
Qed.

Lemma faers_before_negtrans (x y z : FAERSData.t) :
  ¬ faers_before y x → ¬ faers_before z y → ¬ faers_before z x.
Proof. rewrite !faers_not_before_ordered. apply faers_ordered_trans. Qed.

Lemma groupby_head_from_sublist (n : nat) (seen : gmap string nat)
    (frame : list FAERSData.t) :
  groupby_head_from n seen frame `sublist_of` frame.
Proof.
  revert seen. induction frame as [|r frame IH]; intros seen; simpl; [done|].
  destruct (decide _); [by apply sublist_skip|by apply sublist_cons].
Qed.

Lemma groupby_head_from_count (n : nat) (seen : gmap string nat)
    (frame : list FAERSData.t) (d : string) :
  (length (filter (λ r, FAERSData.drug_name r = d) (groupby_head_from n seen frame))
   ≤ n - default 0 (seen !! d))%nat.
Proof.
  revert seen. induction frame as [|r frame IH]; intros seen; simpl; [lia|].
  specialize (IH (<[FAERSData.drug_name r :=
                     S (default 0 (seen !! FAERSData.drug_name r))]> seen)).
  destruct (decide (FAERSData.drug_name r = d)) as [<-|Hne].
  - rewrite lookup_insert_eq in IH. simpl in IH.
    destruct (decide _) as [Hlt|Hge].
    + rewrite filter_cons_True by done. simpl. lia.
    + lia.
  - rewrite lookup_insert_ne in IH by done.
    destruct (decide _); [|done]. by rewrite filter_cons_False.
Qed.

Section faers_facts.
Variable exn_str : exn → string.
Variable str_lower : string → string.

Lemma get_most_likely_side_effect_faers_return (drug_list : list string)
    (db : Session) :
  faers_rows (str_lower <$> drug_list) db ≠ [] →
  get_most_likely_side_effect_faers exn_str str_lower drug_list db
  = Return (groupby_head 5
      (stable_sort faers_before (faers_rows (str_lower <$> drug_list) db))).
Proof.
  intros Hne. unfold get_most_likely_side_effect_faers.
  by destruct (faers_rows _ db).
Qed.

Lemma get_most_likely_side_effect_faers_raise (drug_list : list string)
    (db : Session) :
  faers_rows (str_lower <$> drug_list) db = [] →
  get_most_likely_side_effect_faers exn_str str_lower drug_list db
  = Raise (HTTPException 500 (exn_str (ValueError "Length mismatch"))).
Proof. intros Hnil. unfold get_most_likely_side_effect_faers. by rewrite Hnil. Qed.

End faers_facts.

Lemma StronglySorted_impl {A} (R1 R2 : relation A) (l : list A) :
  (∀ x y, R1 x y → R2 x y) → StronglySorted R1 l → StronglySorted R2 l.
Proof.
  intros HR. induction 1 as [|x l Hs IH Hall]; constructor; [done|].
  eapply Forall_impl; [exact Hall|]. intros y. apply HR.
Qed.

(** ** /ancestor_side_effects: the grouping loop *)

Lemma append_ancestor_lookup (rows : list PTtoHLTMapping.t) (k : string) :
  foldl append_ancestor ∅ rows !! k =
    match filter (λ m, PTtoHLTMapping.descendant_concept_name m = k) rows with
    | [] => None
    | r :: g => Some (PTtoHLTMapping.ancestor_concept_name <$> r :: g)
    end.
Proof.
  induction rows as [|r rows IH] using rev_ind; [done|].
  rewrite foldl_app. simpl. rewrite filter_app, filter_cons, filter_nil.
  set (m := foldl append_ancestor ∅ rows) in *.
  unfold append_ancestor.
  destruct (decide (PTtoHLTMapping.descendant_concept_name r = k)) as [<-|Hne].
  - rewrite lookup_insert_eq.
    destruct (decide (is_Some (m !! PTtoHLTMapping.descendant_concept_name r)))
      as [[g Hg]|Hnone].
    + rewrite Hg in *. simpl.
      destruct (filter _ rows) as [|r0 g0]; [done|].
      injection IH as ->. simpl. by rewrite fmap_app.
    + rewrite lookup_insert_eq. simpl.
      destruct (filter _ rows) as [|r0 g0]; [done|].
      rewrite IH in Hnone. by destruct Hnone.
  - rewrite lookup_insert_ne by done. rewrite app_nil_r.
    destruct (decide _); [done|]. by rewrite lookup_insert_ne.
Qed.

Lemma elem_of_descendant_names (pt_list : list string) (table : list PTtoHLTMapping.t)
    (m : PTtoHLTMapping.t) :
  m ∈ table →
  PTtoHLTMapping.descendant_concept_name m ∈
    (PTtoHLTMapping.descendant_concept_name <$>
     filter (λ m, PTtoHLTMapping.descendant_concept_name m ∈ pt_list) table)
  ↔ PTtoHLTMapping.descendant_concept_name m ∈ pt_list.
Proof.
  intros Hm. rewrite list_elem_of_fmap. split.
  - intros (m' & Heq & Hin). apply list_elem_of_filter in Hin as [Hin _].
    by rewrite Heq.
  - intros Hin. exists m. split; [done|]. by apply list_elem_of_filter.
Qed.

(** ** The MIMIC lookups *)

Lemma add_hadm_id_lookup_ne (m : gmap (option string) (list Z)) (d : Diagnosis.t)
    (k : option string) :
  Diagnosis.ICD9_CODE d ≠ k → add_hadm_id m d !! k = m !! k.
Proof.
  intros Hne. unfold add_hadm_id.
  set (key := Diagnosis.ICD9_CODE d) in *.
  set (m1 := if decide (is_Some (m !! key)) then m else <[key := []]> m).
  assert (m1 !! k = m !! k) as Hm1.
  { unfold m1. destruct (decide _); [done|]. by rewrite lookup_insert_ne. }
  clearbody m1.
  destruct (Diagnosis.HADM_ID d) as [h|]; [|done].
  destruct (decide _); [|done]. by rewrite lookup_insert_ne.
Qed.

Lemma add_hadm_id_lookup_eq (m : gmap (option string) (list Z)) (d : Diagnosis.t) :
  add_hadm_id m d !! Diagnosis.ICD9_CODE d =
    Some (let l := default [] (m !! Diagnosis.ICD9_CODE d) in
          match Diagnosis.HADM_ID d with
          | Some h => if decide (h ≠ 0%Z ∧ h ∉ l) then (l ++ [h])%list else l
          | None => l
          end).
Proof.
  unfold add_hadm_id.
  set (key := Diagnosis.ICD9_CODE d).
  set (m1 := if decide (is_Some (m !! key)) then m else <[key := []]> m).
  assert (m1 !! key = Some (default [] (m !! key))) as Hm1.
  { unfold m1. destruct (decide (is_Some (m !! key))) as [[l Hl]|Hnone].
    - by rewrite Hl.
    - rewrite lookup_insert_eq. apply eq_None_not_Some in Hnone. by rewrite Hnone. }
  rewrite Hm1. simpl. clearbody m1.
  destruct (Diagnosis.HADM_ID d) as [h|]; [|done].
  destruct (decide _); [|done]. by rewrite lookup_insert_eq.
Qed.

Lemma add_hadm_id_fold (ds : list Diagnosis.t) (k : option string) :
  (foldl add_hadm_id ∅ ds !! k = None ↔ ∀ d, d ∈ ds → Diagnosis.ICD9_CODE d ≠ k)
  ∧ hadm_ids_of ds k (default [] (foldl add_hadm_id ∅ ds !! k)).
Proof.
  induction ds as [|d0 ds [IHnone [IHnd IHin]]] using rev_ind.
  { split; [split; [by intros _ d ?%not_elem_of_nil|done]|].
    split; [constructor|]. intros h. split; [by intros ?%not_elem_of_nil|].
    by intros (_ & d & ?%not_elem_of_nil & _). }
  rewrite foldl_app. simpl. set (m := foldl add_hadm_id ∅ ds) in *.
  destruct (decide (Diagnosis.ICD9_CODE d0 = k)) as [Heq|Hne].
  - subst k. rewrite add_hadm_id_lookup_eq. simpl.
    set (l := default [] (m !! Diagnosis.ICD9_CODE d0)) in *.
    split.
    { split; [done|]. intros Hall. exfalso. eapply Hall; [|done].
      apply elem_of_app. right. left. }
    destruct (Diagnosis.HADM_ID d0) as [h0|] eqn:Eh.
    + destruct (decide (h0 ≠ 0%Z ∧ h0 ∉ l)) as [[Hnz Hnew]|Hold].
      * split.
        { apply NoDup_app. split_and!; [done| |apply NoDup_singleton].
          intros x Hx ->%list_elem_of_singleton. done. }
        intros h. rewrite elem_of_app, list_elem_of_singleton, IHin. split.
        -- intros [(Hh & d & Hd & Hc & Hh')| ->].
           ++ split; [done|]. exists d. rewrite elem_of_app. auto.
           ++ split; [done|]. exists d0. rewrite elem_of_app, list_elem_of_singleton.
              auto.
        -- intros (Hh & d & Hd & Hc & Hh').
           apply elem_of_app in Hd as [Hd| ->%list_elem_of_singleton].
           ++ left. split; [done|]. by exists d.
           ++ right. congruence.
      * split; [done|]. intros h. rewrite IHin. split.
        -- intros (Hh & d & Hd & Hc & Hh'). split; [done|]. exists d.
           rewrite elem_of_app. auto.
        -- intros (Hh & d & Hd & Hc & Hh').
           apply elem_of_app in Hd as [Hd| ->%list_elem_of_singleton].
           ++ split; [done|]. by exists d.
           ++ assert (h = h0) as -> by congruence.
              destruct (decide (h0 ∈ l)) as [Hin|Hnin]; [by apply IHin|].
              by destruct Hold.
    + split; [done|]. intros h. rewrite IHin. split.
      * intros (Hh & d & Hd & Hc & Hh'). split; [done|]. exists d.
        rewrite elem_of_app. auto.
      * intros (Hh & d & Hd & Hc & Hh').
        apply elem_of_app in Hd as [Hd| ->%list_elem_of_singleton].
        -- split; [done|]. by exists d.
        -- congruence.
  - rewrite add_hadm_id_lookup_ne by done. split.
    + rewrite IHnone. split.
      * intros Hall d [Hd| ->%list_elem_of_singleton]%elem_of_app; [by apply Hall|done].
      * intros Hall d Hd. apply Hall, elem_of_app. by left.
    + split; [done|]. intros h. rewrite IHin. split.
      * intros (Hh & d & Hd & Hc & Hh'). split; [done|]. exists d.
        rewrite elem_of_app. auto.
      * intros (Hh & d & Hd & Hc & Hh').
        apply elem_of_app in Hd as [Hd| ->%list_elem_of_singleton]; [|done].
        split; [done|]. by exists d.
Qed.

Lemma foldl_insert_titles_None (l : list D_Icd.t)
    (m : gmap (option string) (option string * option string)) (c : option string) :
  m !! c = None →
  (∀ t, t ∈ l → Some (D_Icd.ICD9_CODE t) ≠ c) →
  foldl (λ m d, <[Some (D_Icd.ICD9_CODE d) :=
                    (D_Icd.SHORT_TITLE d, D_Icd.LONG_TITLE d)]> m) m l !! c = None.
Proof.
  revert m. induction l as [|t l IH]; intros m Hm Hall; simpl; [done|].
  apply IH.
  - rewrite lookup_insert_ne; [done|]. apply Hall. left.
  - intros t' Ht'. apply Hall. by right.
Qed.

Lemma titles_of_None (icd9_codes : list (option string)) (db : Session)
    (c : option string) :
  (∀ t, t ∈ d_icd db → Some (D_Icd.ICD9_CODE t) ≠ c) →
  titles_of icd9_codes db !! c = None.
Proof.
  intros Hall. unfold titles_of. apply foldl_insert_titles_None; [done|].
  intros t Ht. apply list_elem_of_filter in Ht as [_ Ht]. by apply Hall.
Qed.

Section lookup_facts.
Variable int_eq_str : Z → string → bool.

Lemma find_patient_None (patient_id : string) (db : Session) :
  (∀ p, p ∈ patients db → int_eq_str (Patient.SUBJECT_ID p) patient_id = false) →
  find_patient int_eq_str patient_id db = None.
Proof.
  intros Hall. unfold find_patient.
  destruct (filter _ (patients db)) as [|p l] eqn:E; [done|].
  assert (p ∈ filter (λ p, int_eq_str (Patient.SUBJECT_ID p) patient_id = true)
                (patients db)) as Hp by (rewrite E; left).
  apply list_elem_of_filter in Hp as [Ht Hp]. rewrite (Hall p Hp) in Ht. done.
Qed.

Lemma find_patient_Some (patient_id : string) (db : Session) (p : Patient.t) :
  p ∈ patients db →
  int_eq_str (Patient.SUBJECT_ID p) patient_id = true →
  is_Some (find_patient int_eq_str patient_id db).
Proof.
  intros Hp Ht. unfold find_patient.
  destruct (filter _ (patients db)) as [|q l] eqn:E; [|by eexists].
  assert (p ∈ filter (λ p, int_eq_str (Patient.SUBJECT_ID p) patient_id = true)
                (patients db)) as Hin by (by apply list_elem_of_filter).
  rewrite E in Hin. by apply not_elem_of_nil in Hin.
Qed.

End lookup_facts.

Lemma diagnosis_entry_icd9_code icd9_to_titles icd9_to_hadm_ids icd9_code :
  DiagnosisEntry.icd9_code (diagnosis_entry icd9_to_titles icd9_to_hadm_ids icd9_code)
  = icd9_code.
Proof. unfold diagnosis_entry. by destruct (icd9_to_titles !! icd9_code) as [[??]|]. Qed.

Lemma diagnosis_entry_hadm_ids icd9_to_titles icd9_to_hadm_ids icd9_code :
  DiagnosisEntry.hadm_ids (diagnosis_entry icd9_to_titles icd9_to_hadm_ids icd9_code)
  = default [] (icd9_to_hadm_ids !! icd9_code).
Proof. unfold diagnosis_entry. by destruct (icd9_to_titles !! icd9_code) as [[??]|]. Qed.

Lemma diagnosis_entry_codes icd9_to_titles icd9_to_hadm_ids (codes : list (option string)) :
  DiagnosisEntry.icd9_code <$> (diagnosis_entry icd9_to_titles icd9_to_hadm_ids <$> codes)
  = codes.
Proof.
  induction codes as [|c codes IH]; [done|].
  rewrite !fmap_cons, IH. by rewrite diagnosis_entry_icd9_code.
Qed.

(** ** /alternative_search: the count of a group *)

Lemma func_count_subquery (replaced_drug : string) (indication_list : list string)
    (db : Session) (d : string) :
  d ≠ replaced_drug →
  func_count (Some d) (subquery replaced_drug indication_list db)
  = matching_row_count d indication_list db.
Proof.
  intros Hd. unfold func_count, subquery, matching_row_count.
  rewrite filter_fmap_comm, length_fmap, list_filter_filter.
  apply length_filter_ext. intros [dr ev] _; simpl.
  split.
  - by intros ((Hdr & _) & Hin & Hne & _).
  - intros (-> & Hin & Hne). split_and!; try done.
    destruct ev; [by eexists|done].
Qed.

(** * The claims *)

Section culprit_claims.
Variable exn_str : exn → string.
Variable str_lower : string → string.

(** C3 (as the code has it). When the rows retrieved by /culprit_drug are
    not empty and their combined rates add up to exactly 0, the division is
    not guarded: the first division raises, no score is produced, and the
    handler answers HTTP 500 carrying the text of the division error. *)
Theorem culprit_zero_total_is_500 (side_effect : string) (drug_list : list string)
    (db : Session) :
  culprit_rows (str_lower side_effect) (str_lower <$> drug_list) db ≠ [] →
  py_sum (BarklaData.combined_rate <$>
          culprit_rows (str_lower side_effect) (str_lower <$> drug_list) db) = 0%Qc →
  get_culprit_drug exn_str str_lower side_effect drug_list db
  = Raise (HTTPException 500 (exn_str ZeroDivisionError)).
Proof. intros Hne Hzero. by apply get_culprit_drug_raise. Qed.

(** C5. Whenever /culprit_drug returns a non-empty list, the scores of its
    entries add up to 1 (in exact arithmetic). *)
Theorem culprit_scores_sum_to_one (side_effect : string) (drug_list : list string)
    (db : Session) (l : list CulpritEntry.t) :
  get_culprit_drug exn_str str_lower side_effect drug_list db = Return l →
  l ≠ [] →
  py_sum (CulpritEntry.score <$> l) = 1%Qc.
Proof.
  intros Hret Hne.
  apply get_culprit_drug_inv in Hret as [[_ ->]|[Htotal ->]]; [done|].
  set (rows := culprit_rows _ _ _) in *.
  set (total := py_sum _) in *.
  rewrite <- list_fmap_compose.
  rewrite (py_sum_perm _ ((λ x, x / total)%Qc <$> (BarklaData.combined_rate <$> rows))).
  - rewrite py_sum_div. fold total. by apply Qcmult_inv_r.
  - rewrite <- list_fmap_compose.
    etrans; [apply fmap_Permutation, stable_sort_perm|].
    by rewrite <- list_fmap_compose.
Qed.

(** C6. The list /culprit_drug returns is in non-increasing order of score,
    holds the retrieved rows (each with its share of the total), and rows of
    equal score stand in their retrieval order; with no matching row the
    answer is the empty list; and a list is returned whenever the total of the
    retrieved rates is not 0. *)
Theorem culprit_ranking_sorted_stable (side_effect : string)
    (drug_list : list string) (db : Session) :
  let rows := culprit_rows (str_lower side_effect) (str_lower <$> drug_list) db in
  (rows = [] → get_culprit_drug exn_str str_lower side_effect drug_list db = Return [])
  ∧ (py_sum (BarklaData.combined_rate <$> rows) ≠ 0%Qc →
     ∃ l, get_culprit_drug exn_str str_lower side_effect drug_list db = Return l)
  ∧ ∀ l, get_culprit_drug exn_str str_lower side_effect drug_list db = Return l →
      StronglySorted (λ a b, (CulpritEntry.score b ≤ CulpritEntry.score a)%Qc) l
      ∧ l ≡ₚ retrieved_entries rows
      ∧ ∀ s : Qc, filter (λ e, CulpritEntry.score e = s) l
                  = filter (λ e, CulpritEntry.score e = s) (retrieved_entries rows).
Proof.
  intros rows. split_and!.
  - intros Hnil. unfold get_culprit_drug. fold rows. by rewrite Hnil.
  - intros Htotal. eexists. by apply get_culprit_drug_return.
  - intros l Hret.
    apply get_culprit_drug_inv in Hret as [[Hnil ->]|[Htotal ->]].
    { fold rows in Hnil. rewrite Hnil. split_and!; [constructor|done..]. }
    fold rows. split_and!.
    + apply (StronglySorted_fmap _ (λ a b, ¬ score_before b a)).
      * intros a b. unfold score_before. simpl. by rewrite <- Qcle_ngt.
      * apply stable_sort_sorted;
          [apply score_before_asym | apply score_before_negtrans].
    + rewrite <- culprit_entries_fmap. apply fmap_Permutation, stable_sort_perm.
    + intros s. rewrite <- culprit_entries_fmap, !(filter_fmap_comm culprit_entry). f_equal.
      apply stable_sort_filter.
      intros a b Ha Hb. unfold score_before. simpl in *. rewrite Ha, Hb.
      intros Hlt. by apply Qclt_not_eq in Hlt.
Qed.

End culprit_claims.

(** C3, the claim as written fails: one retrieved row of rate 0 makes the
    total 0, and the answer is the division error as HTTP 500, not a list of
    scores. *)
Lemma culprit_zero_total_unguarded :
  culprit_rows (demo_lower "Rash") (demo_lower <$> ["Warfarin"]) demo_db
  = [BarklaData.mk "rash" "warfarin" (rate 0 1)]
  ∧ py_sum [rate 0 1] = 0%Qc
  ∧ get_culprit_drug demo_exn_str demo_lower "Rash" ["Warfarin"] demo_db
    = Raise (HTTPException 500 "float division by zero").
Proof. split_and!; [done| by apply Qc_is_canon | by vm_compute]. Qed.

Lemma culprit_zero_total_is_500_witness :
  get_culprit_drug demo_exn_str demo_lower "Rash" ["Warfarin"] demo_db
  = Raise (HTTPException 500 (demo_exn_str ZeroDivisionError)).
Proof.
  apply culprit_zero_total_is_500; [by vm_compute | by apply Qc_is_canon].
Defined.

Lemma culprit_scores_sum_to_one_witness :
  ∃ l, get_culprit_drug demo_exn_str demo_lower "Headache"
         ["Aspirin"; "Ibuprofen"; "Warfarin"] demo_db = Return l
       ∧ CulpritEntry.drug_name <$> l = ["ibuprofen"; "aspirin"; "warfarin"]
       ∧ py_sum (CulpritEntry.score <$> l) = 1%Qc.
Proof.
  eexists. split; [vm_compute; reflexivity|]. split; [done|].
  apply (culprit_scores_sum_to_one demo_exn_str demo_lower "Headache"
           ["Aspirin"; "Ibuprofen"; "Warfarin"] demo_db);
    [vm_compute; reflexivity | done].
Defined.

Lemma culprit_ranking_sorted_stable_witness :
  ∃ l, get_culprit_drug demo_exn_str demo_lower "Headache"
         ["Aspirin"; "Ibuprofen"; "Warfarin"] demo_db = Return l
       ∧ CulpritEntry.drug_name <$> l = ["ibuprofen"; "aspirin"; "warfarin"]
       ∧ StronglySorted (λ a b, (CulpritEntry.score b ≤ CulpritEntry.score a)%Qc) l.
Proof.
  eexists. split; [vm_compute; reflexivity|]. split; [done|].
  apply (culprit_ranking_sorted_stable demo_exn_str demo_lower "Headache"
           ["Aspirin"; "Ibuprofen"; "Warfarin"] demo_db).
  vm_compute; reflexivity.
Defined.

Section most_likely_claims.
Variable exn_str : exn → string.
Variable str_lower : string → string.
Variable sort_values_desc : list (string * Qc) → list (string * Qc).
Hypothesis sort_values_desc_perm : ∀ l, sort_values_desc l ≡ₚ l.
Hypothesis sort_values_desc_sorted :
  ∀ l, StronglySorted (λ a b, (b.2 ≤ a.2)%Qc) (sort_values_desc l).

(** C7. Whatever order the sort leaves ties in, /most_likely_side_effects
    returns a list of at most 10 entries whose total_rate is non-increasing;
    each entry's total_rate is the sum of combined_rate over the retrieved rows
    of its side effect, and its most_likely_drug is the drug of the first row,
    in retrieval order, that attains the largest combined_rate of that group
    (every row before it is strictly smaller, every row after it is at most
    as large). *)
Theorem most_likely_side_effects_top10 (drug_list : list string) (db : Session) :
  let rows := filter (λ r, BarklaData.drug_name r ∈ str_lower <$> drug_list)
                (barkla_weighted_rate db) in
  ∃ l, get_most_likely_side_effect exn_str str_lower sort_values_desc drug_list db
       = Return l
    ∧ (length l ≤ 10)%nat
    ∧ StronglySorted
        (λ a b, (SideEffectEntry.total_rate b ≤ SideEffectEntry.total_rate a)%Qc) l
    ∧ ∀ e, e ∈ l →
        let group :=
          filter (λ r, BarklaData.side_effect r = SideEffectEntry.side_effect e) rows in
        SideEffectEntry.total_rate e = py_sum (BarklaData.combined_rate <$> group)
        ∧ ∃ pre r post,
            group = (pre ++ r :: post)%list
            ∧ SideEffectEntry.most_likely_drug e = BarklaData.drug_name r
            ∧ Forall (λ x, (BarklaData.combined_rate x < BarklaData.combined_rate r)%Qc) pre
            ∧ Forall (λ x, (BarklaData.combined_rate x ≤ BarklaData.combined_rate r)%Qc) post.
Proof.
  intros rows. eexists. split; [by apply get_most_likely_side_effect_return|].
  fold rows. split_and!.
  - rewrite length_fmap, length_take. lia.
  - apply (StronglySorted_fmap _ (λ a b : string * Qc, (b.2 ≤ a.2)%Qc)); [done|].
    eapply StronglySorted_sublist; [apply sublist_take|done].
  - intros e He group.
    apply list_elem_of_fmap in He as ([k v] & -> & Hin).
    apply (sublist_subseteq _ _ (sublist_take _ _)) in Hin.
    rewrite sort_values_desc_perm in Hin.
    apply elem_of_reset_index in Hin. rewrite groupby_sum_lookup in Hin.
    subst group. unfold side_effect_entry. simpl.
    destruct (filter _ rows) as [|r g]; [done|].
    injection Hin as <-. split; [done|].
    destruct (idxmax_from_first_max g [] [] r) as (pre & post & Heq & Hpre & Hpost);
      [constructor..|].
    exists pre, (idxmax_from r g), post. simpl in Heq. by rewrite <- Heq.
Qed.

End most_likely_claims.

Lemma demo_sort_values_desc_perm (l : list (string * Qc)) :
  demo_sort_values_desc l ≡ₚ l.
Proof. apply merge_sort_Permutation. Qed.

Lemma demo_sort_values_desc_sorted (l : list (string * Qc)) :
  StronglySorted (λ a b, (b.2 ≤ a.2)%Qc) (demo_sort_values_desc l).
Proof.
  assert (Transitive total_rate_ge) as Htrans.
  { intros a b c. unfold total_rate_ge. intros H1 H2. by eapply Qcle_trans. }
  assert (Total total_rate_ge) as Htotal.
  { intros a b. unfold total_rate_ge. destruct (total Qcle (b.2) (a.2)); auto. }
  apply (StronglySorted_merge_sort total_rate_ge).
Qed.

Lemma most_likely_side_effects_top10_witness :
  ∃ l, get_most_likely_side_effect demo_exn_str demo_lower demo_sort_values_desc
         ["Aspirin"; "Ibuprofen"; "Warfarin"] demo_db = Return l
     ∧ (length l ≤ 10)%nat
     ∧ (λ e, (SideEffectEntry.side_effect e, SideEffectEntry.most_likely_drug e)) <$> l
       = [("headache", "ibuprofen"); ("nausea", "aspirin"); ("rash", "warfarin")].
Proof.
  destruct (most_likely_side_effects_top10 demo_exn_str demo_lower
              demo_sort_values_desc demo_sort_values_desc_perm
              demo_sort_values_desc_sorted
              ["Aspirin"; "Ibuprofen"; "Warfarin"] demo_db)
    as (l & Hret & Hlen & _).
  exists l. split; [done|]. split; [done|].
  vm_compute in Hret. injection Hret as <-. reflexivity.
Defined.

Section faers_claims.
Variable exn_str : exn → string.
Variable str_lower : string → string.

(** C2 (what the code does). When no occurrence-based rate row matches the
    drug list, /most_likely_side_effects_faers does not return the empty list:
    naming the six columns of the empty frame raises, and the handler answers
    HTTP 500 with that error's text. *)
Theorem faers_no_rows_is_500 (drug_list : list string) (db : Session) :
  faers_rows (str_lower <$> drug_list) db = [] →
  get_most_likely_side_effect_faers exn_str str_lower drug_list db
  = Raise (HTTPException 500 (exn_str (ValueError "Length mismatch"))).
Proof. apply get_most_likely_side_effect_faers_raise. Qed.

(** C8. When at least one occurrence-based rate row matches the drug list,
    /most_likely_side_effects_faers returns records taken from the matching
    rows, at most 5 for each drug name, with drug names in ascending order
    and, under one drug name, rates in non-increasing order. *)
Theorem faers_top5_per_drug (drug_list : list string) (db : Session) :
  faers_rows (str_lower <$> drug_list) db ≠ [] →
  ∃ l, get_most_likely_side_effect_faers exn_str str_lower drug_list db = Return l
    ∧ l ⊆ faers_rows (str_lower <$> drug_list) db
    ∧ (∀ d, (length (filter (λ r, FAERSData.drug_name r = d) l) ≤ 5)%nat)
    ∧ StronglySorted faers_ordered l.
Proof.
  intros Hne. eexists.
  split; [by apply get_most_likely_side_effect_faers_return|].
  unfold groupby_head. split_and!.
  - etrans; [apply sublist_subseteq, groupby_head_from_sublist|].
    intros r. by rewrite stable_sort_perm.
  - intros d. etrans; [apply groupby_head_from_count|]. lia.
  - eapply StronglySorted_sublist; [apply groupby_head_from_sublist|].
    apply (StronglySorted_impl (λ a b, ¬ faers_before b a)).
    + intros a b. apply faers_not_before_ordered.
    + apply stable_sort_sorted;
        [apply faers_before_asym | apply faers_before_negtrans].
Qed.

End faers_claims.

Lemma faers_no_rows_is_500_witness :
  faers_rows (demo_lower <$> ["Metformin"]) demo_db = []
  ∧ get_most_likely_side_effect_faers demo_exn_str demo_lower ["Metformin"] demo_db
    = Raise (HTTPException 500 "Length mismatch").
Proof.
  split; [done|].
  by apply (faers_no_rows_is_500 demo_exn_str demo_lower ["Metformin"] demo_db).
Defined.

Lemma faers_top5_per_drug_witness :
  ∃ l, get_most_likely_side_effect_faers demo_exn_str demo_lower
         ["Warfarin"; "Aspirin"] demo_db = Return l
     ∧ (λ r, (FAERSData.drug_name r, FAERSData.side_effect r)) <$> l
       = [("aspirin", "dyspepsia"); ("aspirin", "tinnitus"); ("aspirin", "headache");
          ("aspirin", "asthma"); ("aspirin", "nausea"); ("warfarin", "haemorrhage")]
     ∧ StronglySorted faers_ordered l.
Proof.
  destruct (faers_top5_per_drug demo_exn_str demo_lower ["Warfarin"; "Aspirin"] demo_db)
    as (l & Hret & _ & _ & Hsorted); [by vm_compute|].
  exists l. split; [done|]. split; [|done].
  vm_compute in Hret. injection Hret as <-. reflexivity.
Defined.

Section ancestor_claims.
Variable exn_str : exn → string.

(** C9. /ancestor_side_effects returns a mapping whose keys are exactly the
    names of the input list that have at least one ancestor row of class
    'HLGT'; each key maps to the '/'-joined list, without repetition, of the
    ancestor names of its 'HLGT' rows (in some order); a name with no such row
    is not a key. *)
Theorem ancestor_side_effects_mapping (pt_list : list string) (db : Session) :
  ∃ res : gmap string string,
    get_ancestor_side_effects exn_str pt_list db = Return res
    ∧ (∀ k, is_Some (res !! k) ↔
            k ∈ pt_list
            ∧ ∃ m, m ∈ pt_to_hlt_or_hlgt db
                   ∧ PTtoHLTMapping.descendant_concept_name m = k
                   ∧ PTtoHLTMapping.ancestor_concept_class_id m = "HLGT")
    ∧ ∀ k v, res !! k = Some v →
        ∃ names : list string,
          v = String.concat "/" names
          ∧ NoDup names
          ∧ ∀ a, a ∈ names ↔
                 ∃ m, m ∈ pt_to_hlt_or_hlgt db
                      ∧ PTtoHLTMapping.descendant_concept_name m = k
                      ∧ PTtoHLTMapping.ancestor_concept_class_id m = "HLGT"
                      ∧ PTtoHLTMapping.ancestor_concept_name m = a.
Proof.
  eexists. split; [reflexivity|].
  set (names := PTtoHLTMapping.descendant_concept_name <$> _).
  set (rows := filter _ (pt_to_hlt_or_hlgt db)).
  assert (∀ m, m ∈ rows ↔
            m ∈ pt_to_hlt_or_hlgt db
            ∧ PTtoHLTMapping.descendant_concept_name m ∈ pt_list
            ∧ PTtoHLTMapping.ancestor_concept_class_id m = "HLGT") as Hrows.
  { intros m. unfold rows. rewrite list_elem_of_filter. split.
    - intros [[Hn Hc] Hm]. split_and!; [done| |done].
      by apply (elem_of_descendant_names pt_list (pt_to_hlt_or_hlgt db)).
    - intros (Hm & Hp & Hc). split_and!; [|done..].
      by apply (elem_of_descendant_names pt_list (pt_to_hlt_or_hlgt db)). }
  split.
  - intros k. rewrite lookup_fmap, append_ancestor_lookup.
    destruct (filter _ rows) as [|r g] eqn:E.
    + split; [by intros [? ?]|]. intros (Hk & m & Hm & <- & Hc). exfalso.
      assert (m ∈ filter (λ m0, PTtoHLTMapping.descendant_concept_name m0
                = PTtoHLTMapping.descendant_concept_name m) rows) as Hin.
      { apply list_elem_of_filter. split; [done|]. by apply Hrows. }
      rewrite E in Hin. by apply not_elem_of_nil in Hin.
    + split; [intros _|by eexists].
      assert (r ∈ filter (λ m0, PTtoHLTMapping.descendant_concept_name m0 = k) rows)
        as Hin by (rewrite E; left).
      apply list_elem_of_filter in Hin as [<- Hr]. apply Hrows in Hr as (? & ? & ?).
      split; [done|]. by exists r.
  - intros k v. rewrite lookup_fmap, append_ancestor_lookup.
    destruct (filter _ rows) as [|r g] eqn:E; [done|].
    intros [= <-]. unfold join_set.
    exists (elements (list_to_set (PTtoHLTMapping.ancestor_concept_name <$> r :: g)
                      : gset string)).
    split; [done|]. split; [apply NoDup_elements|].
    intros a. rewrite elem_of_elements, elem_of_list_to_set, <- E, list_elem_of_fmap.
    split.
    + intros (m & -> & Hin). apply list_elem_of_filter in Hin as [<- Hm].
      apply Hrows in Hm as (? & ? & ?). by exists m.
    + intros (m & Hm & <- & Hc & <-). exists m. split; [done|].
      apply list_elem_of_filter. split; [done|]. apply Hrows.
      split_and!; [done| |done].
      assert (r ∈ filter (λ m0, PTtoHLTMapping.descendant_concept_name m0
                = PTtoHLTMapping.descendant_concept_name m) rows) as Hin
        by (rewrite E; left).
      apply list_elem_of_filter in Hin as [Heq Hr]. apply Hrows in Hr as (? & ? & ?).
      by rewrite <- Heq.
Qed.

End ancestor_claims.

Example ancestor_side_effects_demo :
  ∃ res, get_ancestor_side_effects demo_exn_str ["Headache"; "Dizziness"; "Vertigo"]
           demo_db = Return res
       ∧ map_to_list res = [("Headache", "Neurological disorders NEC/Headaches")].
Proof. eexists. split; [reflexivity|]. by vm_compute. Qed.

Section lookup_claims.
Variable exn_str : exn → string.
Variable int_eq_str : Z → string → bool.
Variable age_of_dob : string → result Z.
Variable py_int : string → result Z.

(** C1 (what the code does). For an identifier that the store can compare
    with the integer key (the decimal text of a 32-bit integer for a patient,
    an integer for an admission) and that matches no stored row,
    /patient_portfolio_mimic answers HTTP 404 with a message naming it; but
    /patient_diagnoses_mimic and /admission_details raise their 404 inside a
    try block whose handler catches every exception, the 404 included, and
    answer HTTP 500 with the text of the caught 404. *)
Theorem missing_entity_response (patient_id : string) (hadm_id : Z) (db : Session) :
  integer_text patient_id →
  (∀ p, p ∈ patients db → int_eq_str (Patient.SUBJECT_ID p) patient_id = false) →
  (∀ a, a ∈ admissions db → Admission.HADM_ID a ≠ hadm_id) →
  get_patient_portfolio_mimic int_eq_str age_of_dob py_int patient_id db
  = Raise (HTTPException 404 ("Patient with ID " ++ patient_id ++ " not found"))
  ∧ get_patient_diagnoses_mimic exn_str int_eq_str patient_id db
    = Raise (HTTPException 500
        (exn_str (HTTPException 404
           ("Patient with ID " ++ patient_id ++ " not found"))))
  ∧ get_admission_details exn_str hadm_id db
    = Raise (HTTPException 500
        (exn_str (HTTPException 404
           ("Admission with ID " ++ pretty hadm_id ++ " not found"))))
  ∧ status_of (get_patient_portfolio_mimic int_eq_str age_of_dob py_int patient_id db)
    = 404%Z
  ∧ status_of (get_patient_diagnoses_mimic exn_str int_eq_str patient_id db) = 500%Z
  ∧ status_of (get_admission_details exn_str hadm_id db) = 500%Z.
Proof.
  intros _ Hp Ha.
  assert (get_admission_details exn_str hadm_id db
          = Raise (HTTPException 500
              (exn_str (HTTPException 404
                 ("Admission with ID " ++ pretty hadm_id ++ " not found"))))) as Hadm.
  { unfold get_admission_details.
    destruct (filter _ (admissions db)) as [|a l] eqn:E; [done|].
    assert (a ∈ filter (λ a, Admission.HADM_ID a = hadm_id) (admissions db)) as Hin
      by (rewrite E; left).
    apply list_elem_of_filter in Hin as [Heq Hin]. by destruct (Ha a Hin). }
  rewrite Hadm. unfold get_patient_portfolio_mimic, get_patient_diagnoses_mimic.
  by rewrite find_patient_None.
Qed.

End lookup_claims.

Section diagnoses_claims.
Variable exn_str : exn → string.
Variable int_eq_str : Z → string → bool.

(** C10 (as the code has it). For a patient that exists,
    /patient_diagnoses_mimic returns one entry per distinct ICD9 code of the
    patient's diagnosis rows; an entry whose code has no title row carries
    "Unknown" as both titles; and an entry's hadm_ids holds, without
    repetition, the admission IDs recorded for its code that are neither null
    nor 0. *)
Theorem patient_diagnoses_entries (patient_id : string) (db : Session) :
  (∃ p, p ∈ patients db ∧ int_eq_str (Patient.SUBJECT_ID p) patient_id = true) →
  ∃ l, get_patient_diagnoses_mimic exn_str int_eq_str patient_id db = Return l
    ∧ NoDup (DiagnosisEntry.icd9_code <$> l)
    ∧ (∀ c, c ∈ DiagnosisEntry.icd9_code <$> l ↔
            ∃ d, d ∈ patient_diagnoses int_eq_str patient_id db
                 ∧ Diagnosis.ICD9_CODE d = c)
    ∧ ∀ e, e ∈ l →
        ((∀ t, t ∈ d_icd db → Some (D_Icd.ICD9_CODE t) ≠ DiagnosisEntry.icd9_code e) →
         DiagnosisEntry.short_title e = Some "Unknown"
         ∧ DiagnosisEntry.long_title e = Some "Unknown")
        ∧ NoDup (DiagnosisEntry.hadm_ids e)
        ∧ ∀ h, h ∈ DiagnosisEntry.hadm_ids e ↔
               h ≠ 0%Z
               ∧ ∃ d, d ∈ patient_diagnoses int_eq_str patient_id db
                      ∧ Diagnosis.ICD9_CODE d = DiagnosisEntry.icd9_code e
                      ∧ Diagnosis.HADM_ID d = Some h.
Proof.
  intros (p & Hp & Hmatch).
  destruct (find_patient_Some int_eq_str patient_id db p Hp Hmatch) as [p' Hfind].
  eexists. split.
  { unfold get_patient_diagnoses_mimic. rewrite Hfind. reflexivity. }
  set (ds := patient_diagnoses int_eq_str patient_id db).
  split_and!.
  - rewrite diagnosis_entry_codes. apply NoDup_elements.
  - intros c. rewrite diagnosis_entry_codes, elem_of_elements, elem_of_list_to_set,
      list_elem_of_fmap.
    split; [intros (d & -> & Hd); by exists d|intros (d & Hd & <-); by exists d].
  - intros e He. apply list_elem_of_fmap in He as (c & -> & Hc).
    rewrite diagnosis_entry_icd9_code, diagnosis_entry_hadm_ids.
    split_and!.
    + intros Hnone. unfold diagnosis_entry. by rewrite titles_of_None.
    + apply add_hadm_id_fold.
    + apply add_hadm_id_fold.
Qed.

End diagnoses_claims.

Lemma missing_entity_response_witness :
  integer_text "3"
  ∧ get_patient_portfolio_mimic demo_int_eq_str demo_age_of_dob demo_py_int "3" demo_db
    = Raise (HTTPException 404 "Patient with ID 3 not found")
  ∧ get_patient_diagnoses_mimic demo_exn_str demo_int_eq_str "3" demo_db
    = Raise (HTTPException 500 "404: Patient with ID 3 not found")
  ∧ get_admission_details demo_exn_str 7 demo_db
    = Raise (HTTPException 500 "404: Admission with ID 7 not found").
Proof.
  assert (integer_text "3") as Hid by (exists 3%Z; split; [lia|by vm_compute]).
  split; [exact Hid|].
  destruct (missing_entity_response demo_exn_str demo_int_eq_str demo_age_of_dob
              demo_py_int "3" 7 demo_db) as (H1 & H2 & H3 & _); [exact Hid| | |done].
  - intros p Hp. simpl in Hp. by apply list_elem_of_singleton in Hp as ->.
  - intros a Ha. simpl in Ha. by apply list_elem_of_singleton in Ha as ->.
Defined.

(** C10, the claim as written fails: an admission ID 0 is recorded for code
    4019 of patient 1 and is not null, yet the entry of that code leaves it
    out. *)
Lemma hadm_id_zero_is_dropped :
  Diagnosis.mk 1 (Some 0%Z) (Some "4019")
    ∈ patient_diagnoses demo_int_eq_str "1" demo_db
  ∧ ∃ l e, get_patient_diagnoses_mimic demo_exn_str demo_int_eq_str "1" demo_db
           = Return l
         ∧ e ∈ l
         ∧ DiagnosisEntry.icd9_code e = Some "4019"
         ∧ DiagnosisEntry.hadm_ids e = [100%Z]
         ∧ 0%Z ∉ DiagnosisEntry.hadm_ids e.
Proof.
  split; [vm_compute; by repeat constructor|].
  eexists _, (DiagnosisEntry.mk (Some "4019") (Some "Hypertension NOS")
                (Some "Unspecified essential hypertension") [100%Z]).
  split; [vm_compute; reflexivity|].
  split; [by repeat constructor|]. split; [done|]. split; [done|].
  simpl. by intros ?%list_elem_of_singleton.
Qed.

Lemma patient_diagnoses_entries_witness :
  ∃ l, get_patient_diagnoses_mimic demo_exn_str demo_int_eq_str "1" demo_db = Return l
     ∧ NoDup (DiagnosisEntry.icd9_code <$> l)
     ∧ (λ e, (DiagnosisEntry.icd9_code e, DiagnosisEntry.short_title e,
              DiagnosisEntry.hadm_ids e)) <$> l
       = [(Some "25000", Some "Unknown", []);
          (Some "4019", Some "Hypertension NOS", [100%Z])].
Proof.
  destruct (patient_diagnoses_entries demo_exn_str demo_int_eq_str "1" demo_db)
    as (l & Hret & Hnodup & _).
  { exists (Patient.mk 1 "F" "1950-01-01 00:00:00"). split; [left|done]. }
  exists l. split; [done|]. split; [done|].
  vm_compute in Hret. injection Hret as <-. reflexivity.
Defined.

Section alternative_claims.
Variable exn_str : exn → string.

(** C4. With at least one required indication (the list is a required query
    parameter, so a request carries one value or more), an entry is in the
    answer of /alternative_search exactly when its name is not null, is not
    the replaced drug, and the number of its indication rows whose indication
    is in the required list and is not 'Sudden death' equals the length of the
    required list; and no entry is repeated. *)
Theorem alternative_search_exact_row_count
    (replaced_drug : string) (indication_list : list string) (db : Session) :
  indication_list ≠ [] →
  ∃ res, alternative_search exn_str replaced_drug indication_list db = Return res
    ∧ NoDup res
    ∧ ∀ o : option string,
        AlternativeDrug.mk o ∈ res ↔
        ∃ d, o = Some d ∧ d ≠ replaced_drug
             ∧ matching_row_count d indication_list db = length indication_list.
Proof.
  intros Hne.
  exists (AlternativeDrug.mk <$>
    group_by_having (subquery replaced_drug indication_list db) (length indication_list)).
  split; [unfold alternative_search; by destruct (group_by_having _ _)|].
  split.
  - apply NoDup_fmap_2; [by intros ?? [=]|].
    apply NoDup_filter, NoDup_remove_dups.
  - intros o. rewrite list_elem_of_fmap. split.
    + intros (o' & [= <-] & Hin).
      apply list_elem_of_filter in Hin as [Hcount Hin].
      apply elem_of_remove_dups, list_elem_of_fmap in Hin as ([dr ev] & -> & Hin).
      unfold subquery in Hin. apply list_elem_of_fmap in Hin as (r & [= -> ->] & Hr).
      apply list_elem_of_filter in Hr as [(_ & _ & Hrep & Hsome) _].
      simpl in Hcount.
      destruct (SiderDrugIndications.drug_concept_name r) as [d|] eqn:Ed;
        [|by destruct Hsome].
      exists d. simpl in Hrep. split_and!; [done..|].
      by rewrite <- func_count_subquery with (replaced_drug := replaced_drug).
    + intros (d & -> & Hd & Hcount).
      exists (Some d). split; [done|].
      rewrite <- func_count_subquery with (replaced_drug := replaced_drug) in Hcount by done.
      apply list_elem_of_filter. split; [done|].
      apply elem_of_remove_dups, list_elem_of_fmap.
      destruct (proj1 (filter_nonempty_elem
        (λ p : option string * option string, p.1 = Some d ∧ is_Some p.2)
        (subquery replaced_drug indication_list db))) as (p & Hp & Hp1 & _).
      { unfold func_count in Hcount. intros Hnil. rewrite Hnil in Hcount.
        by destruct indication_list. }
      exists p. by split.
Qed.

End alternative_claims.

Lemma alternative_search_exact_row_count_witness :
  ["Pain"; "Fever"] ≠ []
  ∧ ∃ res, alternative_search demo_exn_str "aspirin" ["Pain"; "Fever"] demo_db
           = Return res
         ∧ res = [AlternativeDrug.mk (Some "ibuprofen")]
         ∧ NoDup res.
Proof.
  split; [done|].
  destruct (alternative_search_exact_row_count demo_exn_str "aspirin"
              ["Pain"; "Fever"] demo_db) as (res & Hret & Hnodup & _); [done|].
  exists res. split; [done|]. split; [|done].
  vm_compute in Hret. by injection Hret as <-.
Defined.

(** * Further properties of the handlers *)

(** ** /culprit_drug *)

Lemma py_sum_nonneg (xs : list Qc) :
  Forall (λ x, (0 ≤ x)%Qc) xs → (0 ≤ py_sum xs)%Qc.
Proof.
  induction 1 as [|x xs Hx _ IH]; [done|].
  rewrite py_sum_cons. replace 0%Qc with (0 + 0)%Qc by ring.
  by apply Qcplus_le_compat.
Qed.

Lemma py_sum_elem_le (xs : list Qc) (x : Qc) :
  Forall (λ x, (0 ≤ x)%Qc) xs → x ∈ xs → (x ≤ py_sum xs)%Qc.
Proof.
  induction 1 as [|y xs Hy Hxs IH]; [by intros ?%not_elem_of_nil|].
  rewrite py_sum_cons. intros [->|Hin]%elem_of_cons.
  - replace y with (y + 0)%Qc at 1 by ring.
    apply Qcplus_le_compat; [apply Qcle_refl|by apply py_sum_nonneg].
  - replace x with (0 + x)%Qc by ring. apply Qcplus_le_compat; [done|by apply IH].
Qed.

Lemma Qcdiv_mult_cancel (x t : Qc) : t ≠ 0%Qc → (x / t * t)%Qc = x.
Proof. intros Ht. field. done. Qed.

Lemma Qcdiv_le_mono (x y t : Qc) : (0 < t)%Qc → (x / t ≤ y / t)%Qc ↔ (x ≤ y)%Qc.
Proof.
  intros Ht. assert (t ≠ 0%Qc) as Hne by (intros ->; by apply Qclt_not_eq in Ht).
  split.
  - intros Hle. rewrite <- (Qcdiv_mult_cancel x t), <- (Qcdiv_mult_cancel y t) by done.
    apply Qcmult_le_compat_r; [done|by apply Qclt_le_weak].
  - intros Hle. apply (Qcmult_lt_0_le_reg_r _ _ t); [done|].
    by rewrite !Qcdiv_mult_cancel.
Qed.

Section culprit_extras.
Variable exn_str : exn → string.
Variable str_lower : string → string.

(** X1. When every retrieved combined rate is non-negative, every score
    returned by /culprit_drug lies between 0 and 1. *)
Theorem culprit_scores_in_unit_interval (side_effect : string)
    (drug_list : list string) (db : Session) (l : list CulpritEntry.t) :
  (∀ r, r ∈ culprit_rows (str_lower side_effect) (str_lower <$> drug_list) db →
        (0 ≤ BarklaData.combined_rate r)%Qc) →
  get_culprit_drug exn_str str_lower side_effect drug_list db = Return l →
  ∀ e, e ∈ l → (0 ≤ CulpritEntry.score e)%Qc ∧ (CulpritEntry.score e ≤ 1)%Qc.
Proof.
  intros Hpos Hret e He.
  apply get_culprit_drug_inv in Hret as [[_ ->]|[Htotal ->]];
    [by apply not_elem_of_nil in He|].
  set (rows := culprit_rows _ _ _) in *.
  set (total := py_sum _) in *.
  apply list_elem_of_fmap in He as (p & -> & Hp).
  rewrite stable_sort_perm in Hp.
  apply list_elem_of_fmap in Hp as (row & -> & Hrow). simpl.
  assert (Forall (λ x, (0 ≤ x)%Qc) (BarklaData.combined_rate <$> rows)) as Hall.
  { apply Forall_fmap, Forall_forall. intros r Hr. by apply Hpos. }
  assert (0 < total)%Qc as Hlt.
  { destruct (Qcle_lt_or_eq 0 total) as [?|Heq]; [by apply py_sum_nonneg|done|].
    by destruct Htotal. }
  split.
  - replace 0%Qc with (0 / total)%Qc by (unfold Qcdiv; ring).
    apply Qcdiv_le_mono; [done|]. by apply Hpos.
  - replace 1%Qc with (total / total)%Qc by (by apply Qcmult_inv_r).
    apply Qcdiv_le_mono; [done|]. apply py_sum_elem_le; [done|].
    apply list_elem_of_fmap. by exists row.
Qed.

End culprit_extras.

Lemma culprit_scores_in_unit_interval_witness :
  ∃ l, get_culprit_drug demo_exn_str demo_lower "Headache"
         ["Aspirin"; "Ibuprofen"; "Warfarin"] demo_db = Return l
     ∧ l ≠ []
     ∧ ∀ e, e ∈ l → (0 ≤ CulpritEntry.score e)%Qc ∧ (CulpritEntry.score e ≤ 1)%Qc.
Proof.
  eexists. split; [vm_compute; reflexivity|]. split; [done|].
  apply (culprit_scores_in_unit_interval demo_exn_str demo_lower "Headache"
           ["Aspirin"; "Ibuprofen"; "Warfarin"] demo_db);
    [|vm_compute; reflexivity].
  intros r Hr. vm_compute in Hr.
  repeat (apply elem_of_cons in Hr as [->|Hr]; [by vm_compute|]).
  by apply not_elem_of_nil in Hr.
Defined.

(** ** /most_likely_side_effects *)

Lemma reset_index_keys (rows : list BarklaData.t) :
  (reset_index (groupby_sum rows)).*1 ≡ₚ remove_dups (BarklaData.side_effect <$> rows).
Proof.
  apply NoDup_Permutation.
  - unfold reset_index. rewrite merge_sort_Permutation. apply NoDup_fst_map_to_list.
  - apply NoDup_remove_dups.
  - intros k. rewrite elem_of_remove_dups, !list_elem_of_fmap. split.
    + intros ([k' v] & -> & Hin). apply elem_of_reset_index in Hin.
      rewrite groupby_sum_lookup in Hin. simpl in *.
      destruct (filter _ rows) as [|r g] eqn:E; [done|].
      assert (r ∈ filter (λ r, BarklaData.side_effect r = k') rows) as Hr
        by (rewrite E; left).
      apply list_elem_of_filter in Hr as [<- Hr]. by exists r.
    + intros (r & -> & Hr).
      destruct (filter (λ r0, BarklaData.side_effect r0 = BarklaData.side_effect r) rows)
        as [|r0 g] eqn:E.
      { assert (r ∈ filter (λ r0, BarklaData.side_effect r0 = BarklaData.side_effect r)
                      rows) as Hin by (by apply list_elem_of_filter).
        rewrite E in Hin. by apply not_elem_of_nil in Hin. }
      exists (BarklaData.side_effect r, py_sum (BarklaData.combined_rate <$> r0 :: g)).
      split; [done|]. apply elem_of_reset_index. by rewrite groupby_sum_lookup, E.
Qed.

Section most_likely_extras.
Variable exn_str : exn → string.
Variable str_lower : string → string.
Variable sort_values_desc : list (string * Qc) → list (string * Qc).
Hypothesis sort_values_desc_perm : ∀ l, sort_values_desc l ≡ₚ l.
Hypothesis sort_values_desc_sorted :
  ∀ l, StronglySorted (λ a b, (b.2 ≤ a.2)%Qc) (sort_values_desc l).

(** X3. /most_likely_side_effects lists each side effect at most once, and
    the number of entries is the number of distinct side effects among the
    retrieved rows, capped at 10. *)
Theorem most_likely_side_effects_distinct (drug_list : list string) (db : Session)
    (l : list SideEffectEntry.t) :
  let rows := filter (λ r, BarklaData.drug_name r ∈ str_lower <$> drug_list)
                (barkla_weighted_rate db) in
  get_most_likely_side_effect exn_str str_lower sort_values_desc drug_list db
  = Return l →
  NoDup (SideEffectEntry.side_effect <$> l)
  ∧ length l = (10 `min` length (remove_dups (BarklaData.side_effect <$> rows)))%nat.
Proof.
  intros rows Hret.
  rewrite get_most_likely_side_effect_return in Hret by done.
  injection Hret as <-. fold rows.
  set (sorted := sort_values_desc (reset_index (groupby_sum rows))).
  assert (sorted.*1 ≡ₚ remove_dups (BarklaData.side_effect <$> rows)) as Hkeys.
  { unfold sorted. rewrite sort_values_desc_perm. apply reset_index_keys. }
  split.
  - rewrite <- list_fmap_compose.
    replace (SideEffectEntry.side_effect ∘ side_effect_entry rows) with
      (fst : string * Qc → string) by done.
    rewrite fmap_take. eapply sublist_NoDup; [|apply sublist_take].
    rewrite Hkeys. apply NoDup_remove_dups.
  - rewrite length_fmap, length_take.
    rewrite <- Hkeys, length_fmap. done.
Qed.

(** X4. The entries are the largest groups: a side effect of the retrieved
    rows that /most_likely_side_effects leaves out has a total that is at
    most the total_rate of every entry returned. *)
Theorem most_likely_side_effects_are_largest (drug_list : list string)
    (db : Session) (l : list SideEffectEntry.t) (r : BarklaData.t) :
  let rows := filter (λ r, BarklaData.drug_name r ∈ str_lower <$> drug_list)
                (barkla_weighted_rate db) in
  get_most_likely_side_effect exn_str str_lower sort_values_desc drug_list db
  = Return l →
  r ∈ rows →
  BarklaData.side_effect r ∉ SideEffectEntry.side_effect <$> l →
  ∀ e, e ∈ l →
    (py_sum (BarklaData.combined_rate <$>
             filter (λ r', BarklaData.side_effect r' = BarklaData.side_effect r) rows)
     ≤ SideEffectEntry.total_rate e)%Qc.
Proof.
  intros rows Hret Hr Hout e He.
  rewrite get_most_likely_side_effect_return in Hret by done.
  injection Hret as <-. fold rows in Hout, He.
  set (sorted := sort_values_desc (reset_index (groupby_sum rows))) in *.
  set (k := BarklaData.side_effect r) in *.
  set (v := py_sum (BarklaData.combined_rate <$>
                    filter (λ r', BarklaData.side_effect r' = k) rows)).
  assert ((k, v) ∈ sorted) as Hkv.
  { unfold sorted. rewrite sort_values_desc_perm.
    apply elem_of_reset_index. rewrite groupby_sum_lookup. fold v.
    unfold v. destruct (filter _ rows) as [|r0 g] eqn:E; [|done].
    assert (r ∈ filter (λ r', BarklaData.side_effect r' = k) rows) as Hin
      by (by apply list_elem_of_filter).
    rewrite E in Hin. by apply not_elem_of_nil in Hin. }
  rewrite <- (take_drop 10 sorted) in Hkv.
  apply elem_of_app in Hkv as [Htake|Hdrop].
  { exfalso. apply Hout. apply list_elem_of_fmap.
    exists (side_effect_entry rows (k, v)). split; [done|].
    apply list_elem_of_fmap. by exists (k, v). }
  apply list_elem_of_fmap in He as (x & -> & Hx). simpl.
  assert (StronglySorted (λ a b : string * Qc, (b.2 ≤ a.2)%Qc)
            (take 10 sorted ++ drop 10 sorted)) as Hs.
  { rewrite take_drop. apply sort_values_desc_sorted. }
  apply (StronglySorted_app_1_elem_of _ _ _ x (k, v) Hs Hx Hdrop).
Qed.

End most_likely_extras.

Section most_likely_drug_extras.
Variable exn_str : exn → string.
Variable str_lower : string → string.
Variable sort_values_desc : list (string * Qc) → list (string * Qc).
Hypothesis sort_values_desc_perm : ∀ l, sort_values_desc l ≡ₚ l.

(** X5. Every most_likely_drug named by /most_likely_side_effects is one of
    the requested drugs, lower-cased. *)
Theorem most_likely_drug_is_requested (drug_list : list string) (db : Session)
    (l : list SideEffectEntry.t) (e : SideEffectEntry.t) :
  get_most_likely_side_effect exn_str str_lower sort_values_desc drug_list db
  = Return l →
  e ∈ l →
  SideEffectEntry.most_likely_drug e ∈ str_lower <$> drug_list.
Proof.
  intros Hret He.
  rewrite get_most_likely_side_effect_return in Hret by done.
  injection Hret as <-.
  set (rows := filter _ (barkla_weighted_rate db)) in *.
  apply list_elem_of_fmap in He as ([k v] & -> & Hin).
  apply (sublist_subseteq _ _ (sublist_take _ _)) in Hin.
  rewrite sort_values_desc_perm in Hin.
  apply elem_of_reset_index in Hin. rewrite groupby_sum_lookup in Hin.
  unfold side_effect_entry. simpl.
  destruct (filter _ rows) as [|r g] eqn:E; [done|].
  destruct (idxmax_from_first_max g [] [] r) as (pre & post & Heq & _);
    [constructor..|].
  simpl in Heq.
  assert (idxmax_from r g ∈ rows) as Hrow.
  { assert (idxmax_from r g ∈ r :: g) as Hg.
    { rewrite Heq. apply elem_of_app. right. left. }
    rewrite <- E in Hg. by apply list_elem_of_filter in Hg as [_ ?]. }
  unfold rows in Hrow. by apply list_elem_of_filter in Hrow as [? _].
Qed.

End most_likely_drug_extras.

Lemma most_likely_side_effects_distinct_witness :
  ∃ l, get_most_likely_side_effect demo_exn_str demo_lower demo_sort_values_desc
         ["Aspirin"; "Ibuprofen"; "Warfarin"] demo_db = Return l
     ∧ NoDup (SideEffectEntry.side_effect <$> l)
     ∧ length l = 3%nat.
Proof.
  eexists. split; [vm_compute; reflexivity|].
  apply (most_likely_side_effects_distinct demo_exn_str demo_lower
           demo_sort_values_desc demo_sort_values_desc_perm
           ["Aspirin"; "Ibuprofen"; "Warfarin"] demo_db).
  vm_compute; reflexivity.
Defined.

Lemma most_likely_side_effects_are_largest_witness :
  ∃ l, get_most_likely_side_effect demo_exn_str demo_lower demo_sort_values_desc
         ["Aspirin"] eleven_effects_db = Return l
     ∧ length l = 10%nat
     ∧ "effect 1" ∉ SideEffectEntry.side_effect <$> l
     ∧ ∀ e, e ∈ l → (rate 1 100 ≤ SideEffectEntry.total_rate e)%Qc.
Proof.
  eexists. split; [vm_compute; reflexivity|].
  split; [done|].
  assert ("effect 1" ∉ ["effect 11"; "effect 10"; "effect 9"; "effect 8"; "effect 7";
                        "effect 6"; "effect 5"; "effect 4"; "effect 3"; "effect 2"])
    as Hout.
  { intros H. repeat (apply elem_of_cons in H as [?|H]; [done|]).
    by apply not_elem_of_nil in H. }
  split; [exact Hout|].
  intros e He.
  replace (rate 1 100) with
    (py_sum (BarklaData.combined_rate <$>
       filter (λ r', BarklaData.side_effect r' = "effect 1")
         (filter (λ r0, BarklaData.drug_name r0 ∈ demo_lower <$> ["Aspirin"])
            (barkla_weighted_rate eleven_effects_db))))
    by (by apply Qc_is_canon).
  eapply (most_likely_side_effects_are_largest demo_exn_str demo_lower
           demo_sort_values_desc demo_sort_values_desc_perm
           demo_sort_values_desc_sorted ["Aspirin"] eleven_effects_db _
           (BarklaData.mk "effect 1" "aspirin" (rate 1 100)));
    [vm_compute; reflexivity|by left|exact Hout|exact He].
Defined.

Lemma most_likely_drug_is_requested_witness :
  ∃ l e, get_most_likely_side_effect demo_exn_str demo_lower demo_sort_values_desc
           ["Aspirin"; "Ibuprofen"; "Warfarin"] demo_db = Return l
       ∧ e ∈ l
       ∧ SideEffectEntry.side_effect e = "headache"
       ∧ SideEffectEntry.most_likely_drug e
         ∈ demo_lower <$> ["Aspirin"; "Ibuprofen"; "Warfarin"].
Proof.
  eexists _, _. split; [vm_compute; reflexivity|].
  split; [left|]. split; [done|].
  eapply (most_likely_drug_is_requested demo_exn_str demo_lower
            demo_sort_values_desc demo_sort_values_desc_perm
            ["Aspirin"; "Ibuprofen"; "Warfarin"] demo_db);
    [vm_compute; reflexivity|left].
Defined.

(** ** /most_likely_side_effects_faers *)

Lemma groupby_head_from_filter (n : nat) (seen : gmap string nat)
    (frame : list FAERSData.t) (d : string) :
  filter (λ r, FAERSData.drug_name r = d) (groupby_head_from n seen frame)
  = take (n - default 0 (seen !! d))
      (filter (λ r, FAERSData.drug_name r = d) frame).
Proof.
  revert seen. induction frame as [|r frame IH]; intros seen; simpl.
  { by rewrite !filter_nil, take_nil. }
  specialize (IH (<[FAERSData.drug_name r :=
                     S (default 0 (seen !! FAERSData.drug_name r))]> seen)).
  destruct (decide (FAERSData.drug_name r = d)) as [<-|Hne].
  - rewrite lookup_insert_eq in IH. simpl in IH.
    rewrite (filter_cons_True _ r frame) by done.
    destruct (decide _) as [Hlt|Hge].
    + rewrite filter_cons_True by done. rewrite IH.
      replace (n - default 0 (seen !! FAERSData.drug_name r))%nat with
        (S (n - S (default 0 (seen !! FAERSData.drug_name r)))) by lia.
      done.
    + rewrite IH.
      replace (n - S (default 0 (seen !! FAERSData.drug_name r)))%nat with 0%nat by lia.
      replace (n - default 0 (seen !! FAERSData.drug_name r))%nat with 0%nat by lia.
      done.
  - rewrite lookup_insert_ne in IH by done.
    rewrite (filter_cons_False _ r frame) by done.
    destruct (decide _); [|done]. by rewrite filter_cons_False.
Qed.

Section faers_extras.
Variable exn_str : exn → string.
Variable str_lower : string → string.

Lemma get_most_likely_side_effect_faers_inv (drug_list : list string) (db : Session)
    (l : list FAERSData.t) :
  get_most_likely_side_effect_faers exn_str str_lower drug_list db = Return l →
  l = groupby_head 5 (stable_sort faers_before (faers_rows (str_lower <$> drug_list) db)).
Proof.
  intros Hret.
  destruct (decide (faers_rows (str_lower <$> drug_list) db = [])) as [Hnil|Hne].
  - rewrite get_most_likely_side_effect_faers_raise in Hret by done. discriminate.
  - rewrite get_most_likely_side_effect_faers_return in Hret by done.
    by injection Hret as <-.
Qed.

(** X6. For every drug name, /most_likely_side_effects_faers returns exactly
    as many records as the drug has matching rows, capped at 5; so no drug
    with a matching row is left without a record. *)
Theorem faers_records_per_drug (drug_list : list string) (db : Session)
    (l : list FAERSData.t) (d : string) :
  get_most_likely_side_effect_faers exn_str str_lower drug_list db = Return l →
  length (filter (λ r, FAERSData.drug_name r = d) l)
  = (5 `min` length (filter (λ r, FAERSData.drug_name r = d)
                       (faers_rows (str_lower <$> drug_list) db)))%nat.
Proof.
  intros ->%get_most_likely_side_effect_faers_inv.
  unfold groupby_head. rewrite groupby_head_from_filter, lookup_empty.
  change (5 - default 0 None)%nat with 5%nat.
  rewrite length_take. f_equal. apply Permutation_length.
  by rewrite stable_sort_perm.
Qed.

(** X7. The records kept for a drug are its rows of highest rate: a matching
    row that /most_likely_side_effects_faers leaves out has a rate that is at
    most the rate of every returned record of the same drug. *)
Theorem faers_kept_rows_are_highest (drug_list : list string) (db : Session)
    (l : list FAERSData.t) (x y : FAERSData.t) :
  get_most_likely_side_effect_faers exn_str str_lower drug_list db = Return l →
  x ∈ l →
  y ∈ faers_rows (str_lower <$> drug_list) db →
  FAERSData.drug_name y = FAERSData.drug_name x →
  y ∉ l →
  (FAERSData.rate y ≤ FAERSData.rate x)%Qc.
Proof.
  intros ->%get_most_likely_side_effect_faers_inv Hx Hy Hd Hout.
  set (sorted := stable_sort faers_before (faers_rows (str_lower <$> drug_list) db)) in *.
  set (d := FAERSData.drug_name x) in *.
  set (group := filter (λ r, FAERSData.drug_name r = d) sorted).
  assert (filter (λ r, FAERSData.drug_name r = d) (groupby_head 5 sorted)
          = take 5 group) as Hkept.
  { unfold groupby_head. by rewrite groupby_head_from_filter, lookup_empty. }
  assert (x ∈ take 5 group) as Hx'.
  { rewrite <- Hkept. by apply list_elem_of_filter. }
  assert (y ∈ drop 5 group) as Hy'.
  { assert (y ∈ group) as Hg.
    { apply list_elem_of_filter. split; [done|]. unfold sorted.
      by rewrite stable_sort_perm. }
    rewrite <- (take_drop 5 group) in Hg.
    apply elem_of_app in Hg as [Hg|Hg]; [|done].
    exfalso. apply Hout. rewrite <- Hkept in Hg.
    by apply list_elem_of_filter in Hg as [_ ?]. }
  assert (StronglySorted faers_ordered (take 5 group ++ drop 5 group)) as Hs.
  { rewrite take_drop. eapply StronglySorted_sublist; [apply sublist_filter|].
    apply (StronglySorted_impl (λ a b, ¬ faers_before b a)).
    - intros a b. apply faers_not_before_ordered.
    - apply stable_sort_sorted;
        [apply faers_before_asym | apply faers_before_negtrans]. }
  destruct (StronglySorted_app_1_elem_of _ _ _ x y Hs Hx' Hy')
    as [[_ Hstrict]|[_ Hle]]; [|done].
  exfalso. apply Hstrict. fold d. rewrite Hd. done.
Qed.

End faers_extras.

Lemma faers_records_per_drug_witness :
  ∃ l, get_most_likely_side_effect_faers demo_exn_str demo_lower
         ["Warfarin"; "Aspirin"] demo_db = Return l
     ∧ length (filter (λ r, FAERSData.drug_name r = "aspirin") l) = 5%nat
     ∧ length (filter (λ r, FAERSData.drug_name r = "warfarin") l) = 1%nat.
Proof.
  eexists. split; [vm_compute; reflexivity|]. split.
  - rewrite (faers_records_per_drug demo_exn_str demo_lower
               ["Warfarin"; "Aspirin"] demo_db _ "aspirin");
      [done|vm_compute; reflexivity].
  - done.
Defined.

Lemma faers_kept_rows_are_highest_witness :
  ∃ l x, get_most_likely_side_effect_faers demo_exn_str demo_lower
           ["Warfarin"; "Aspirin"] demo_db = Return l
       ∧ x ∈ l
       ∧ FAERSData.side_effect x = "dyspepsia"
       ∧ (rate 1 10 ≤ FAERSData.rate x)%Qc.
Proof.
  eexists _, _. split; [vm_compute; reflexivity|].
  split; [left|]. split; [done|].
  eapply (faers_kept_rows_are_highest demo_exn_str demo_lower
            ["Warfarin"; "Aspirin"] demo_db _ _
            (FAERSData.mk "aspirin" "dizziness" 1 10 (rate 1 10) (rate 1 100)));
    [vm_compute; reflexivity|left| |done|].
  - vm_compute. do 4 right. left.
  - intros H. vm_compute in H.
    repeat (apply elem_of_cons in H as [[=]|H]).
    by apply not_elem_of_nil in H.
Defined.

(** ** /interactions, /alternative_interactions *)

Lemma filter_sublist_impl {A} (P Q : A → Prop) `{!∀ x, Decision (P x)}
    `{!∀ x, Decision (Q x)} (l : list A) :
  (∀ x, P x → Q x) → filter P l `sublist_of` filter Q l.
Proof.
  intros HPQ. induction l as [|x l IH]; [done|].
  rewrite !filter_cons. destruct (decide (P x)) as [HP|HP].
  - rewrite decide_True by auto. by apply sublist_skip.
  - destruct (decide (Q x)); [by apply sublist_cons|done].
Qed.

Lemma filter_none {A} (P : A → Prop) `{!∀ x, Decision (P x)} (l : list A) :
  (∀ x, x ∈ l → ¬ P x) → filter P l = [].
Proof.
  intros Hall. induction l as [|x l IH]; [done|].
  rewrite filter_cons_False by (apply Hall; left).
  apply IH. intros y Hy. apply Hall. by right.
Qed.

Lemma filter_ext_in {A} (P Q : A → Prop) `{!∀ x, Decision (P x)}
    `{!∀ x, Decision (Q x)} (l : list A) :
  (∀ x, x ∈ l → P x ↔ Q x) → filter P l = filter Q l.
Proof.
  intros HPQ. induction l as [|x l IH]; [done|].
  rewrite !filter_cons. rewrite IH by (intros y Hy; apply HPQ; by right).
  pose proof (HPQ x ltac:(left)) as Hx.
  destruct (decide (P x)), (decide (Q x)); tauto || done.
Qed.

Lemma sql_in_cons (c : option string) (d : string) (l : list string) :
  sql_in c l → sql_in c (d :: l).
Proof. destruct c; simpl; [by right|done]. Qed.

Lemma sql_in_ext (c : option string) (l l' : list string) :
  (∀ d, d ∈ l ↔ d ∈ l') → sql_in c l ↔ sql_in c l'.
Proof. intros Hl. destruct c; simpl; [apply Hl|done]. Qed.

Section interaction_extras.
Variable exn_str : exn → string.

(** X8. /alternative_interactions returns, in the same order, some of the
    rows that /interactions returns for the replacement drug together with
    the portfolio; no returned row names the replaced drug on either side,
    and every returned row names the replacement drug on one side. *)
Theorem alternative_interactions_within_interactions
    (replaced_drug replacement_drug : string) (drug_list : list string) (db : Store) :
  ∃ l l0,
    alternative_interactions exn_str replaced_drug replacement_drug drug_list db
    = Return l
    ∧ get_interactions exn_str (replacement_drug :: drug_list) db = Return l0
    ∧ l `sublist_of` l0
    ∧ ∀ r, r ∈ l →
        AllDrugDrugInteractions.drug_a_concept_name r ≠ Some replaced_drug
        ∧ AllDrugDrugInteractions.drug_b_concept_name r ≠ Some replaced_drug
        ∧ (AllDrugDrugInteractions.drug_a_concept_name r = Some replacement_drug
           ∨ AllDrugDrugInteractions.drug_b_concept_name r = Some replacement_drug).
Proof.
  eexists _, _. split; [reflexivity|]. split; [reflexivity|]. split.
  - apply filter_sublist_impl. intros r (_ & _ & [[Ha Hb]|[Hb Ha]]).
    + split; [rewrite Ha; by left|by apply sql_in_cons].
    + split; [by apply sql_in_cons|rewrite Hb; by left].
  - intros r [(Ha & Hb & Hcase) _]%list_elem_of_filter. split_and!.
    + destruct (AllDrugDrugInteractions.drug_a_concept_name r); [|done].
      simpl in Ha. congruence.
    + destruct (AllDrugDrugInteractions.drug_b_concept_name r); [|done].
      simpl in Hb. congruence.
    + destruct Hcase as [[? _]|[? _]]; auto.
Qed.

(** X9. Proposing the replaced drug as its own replacement gives no
    interaction at all, whatever the portfolio and the store hold. *)
Theorem alternative_interactions_same_drug (drug : string) (drug_list : list string)
    (db : Store) :
  alternative_interactions exn_str drug drug drug_list db = Return [].
Proof.
  unfold alternative_interactions. simpl. f_equal. apply filter_none.
  intros r _ (Ha & Hb & [[Ha' _]|[Hb' _]]).
  - rewrite Ha' in Ha. by apply Ha.
  - rewrite Hb' in Hb. by apply Hb.
Qed.

(** X10. /interactions depends on its drug list only as a set: two lists
    with the same members (in any order, with any repetitions) give the same
    answer. *)
Theorem get_interactions_set_of_drugs (drug_list drug_list' : list string)
    (db : Store) :
  (∀ d, d ∈ drug_list ↔ d ∈ drug_list') →
  get_interactions exn_str drug_list db = get_interactions exn_str drug_list' db.
Proof.
  intros Hset. unfold get_interactions. do 2 f_equal.
  apply filter_ext_in. intros r _.
  by rewrite (sql_in_ext _ drug_list drug_list'),
             (sql_in_ext (AllDrugDrugInteractions.drug_b_concept_name r)
                drug_list drug_list').
Qed.

End interaction_extras.

Lemma get_interactions_set_of_drugs_witness :
  get_interactions demo_exn_str ["warfarin"; "aspirin"; "warfarin"] demo_store
  = get_interactions demo_exn_str ["aspirin"; "warfarin"] demo_store
  ∧ get_interactions demo_exn_str ["aspirin"; "warfarin"] demo_store
    = Return [AllDrugDrugInteractions.mk 1 (Some "aspirin") (Some "warfarin")
                (Some "Haemorrhage")].
Proof.
  split; [|done].
  apply (get_interactions_set_of_drugs demo_exn_str
           ["warfarin"; "aspirin"; "warfarin"] ["aspirin"; "warfarin"] demo_store).
  intros d. rewrite !elem_of_cons. tauto.
Defined.

(** ** /indications and /single_drug_indications *)

Lemma append_indication_lookup (rows : list SiderDrugIndications.t)
    (k : option string) :
  foldl append_indication ∅ rows !! k =
    match filter (λ r, SiderDrugIndications.drug_concept_name r = k) rows with
    | [] => None
    | r :: g => Some (r :: g)
    end.
Proof.
  induction rows as [|r rows IH] using rev_ind; [done|].
  rewrite foldl_app. simpl. rewrite filter_app, filter_cons, filter_nil.
  set (m := foldl append_indication ∅ rows) in *.
  unfold append_indication.
  destruct (decide (SiderDrugIndications.drug_concept_name r = k)) as [<-|Hne].
  - rewrite lookup_insert_eq.
    destruct (decide (is_Some (m !! SiderDrugIndications.drug_concept_name r)))
      as [[g Hg]|Hnone].
    + rewrite Hg in *. simpl.
      destruct (filter _ rows) as [|r0 g0]; [done|].
      by injection IH as ->.
    + rewrite lookup_insert_eq. simpl.
      destruct (filter _ rows) as [|r0 g0]; [done|].
      rewrite IH in Hnone. by destruct Hnone.
  - rewrite lookup_insert_ne by done. rewrite app_nil_r.
    destruct (decide _); [done|]. by rewrite lookup_insert_ne.
Qed.

Section indication_extras.
Variable exn_str : exn → string.

(** X11. /indications groups without loss: under a requested drug that has
    at least one indication row it files exactly the list that
    /single_drug_indications returns for that drug, in the same order; a drug
    that was not requested, or has no such row, is not a key; and NULL is
    never a key. *)
Theorem get_indications_groups_single (drug_list : list string) (db : Session)
    (d : string) :
  ∃ res single,
    get_indications exn_str drug_list db = Return res
    ∧ get_single_drug_indications exn_str d db = Return single
    ∧ res !! Some d = (if decide (d ∈ drug_list ∧ single ≠ []) then Some single else None)
    ∧ res !! None = None.
Proof.
  eexists _, _. split; [reflexivity|]. split; [reflexivity|].
  rewrite !append_indication_lookup, !list_filter_filter. split.
  - destruct (decide (d ∈ drug_list ∧ _)) as [[Hd Hne]|Hnot].
    + rewrite (filter_ext_in _
        (λ r, SiderDrugIndications.drug_concept_name r = Some d
              ∧ sql_ne (SiderDrugIndications.event_concept_name r) "Sudden death")).
      * by destruct (filter _ (sider_drug_indications db)).
      * intros r _. split; [by intros (? & _ & ?)|].
        intros [Hr ?]. split_and!; [done| |done]. by rewrite Hr.
    + rewrite filter_none; [done|].
      intros r Hr (Hdr & Hin & Hsd). apply Hnot. split.
      * by rewrite Hdr in Hin.
      * intros Hnil.
        assert (r ∈ filter (λ r,
                  SiderDrugIndications.drug_concept_name r = Some d
                  ∧ sql_ne (SiderDrugIndications.event_concept_name r) "Sudden death")
                  (sider_drug_indications db)) as Hin'
          by (by apply list_elem_of_filter).
        rewrite Hnil in Hin'. by apply not_elem_of_nil in Hin'.
  - rewrite filter_none; [done|]. intros r _ (Hdr & Hin & _).
    by rewrite Hdr in Hin.
Qed.

End indication_extras.

(** ** The vocabulary listings *)

Lemma elem_of_non_null_set (names : list (option string)) (k : string) :
  k ∈ non_null_set names ↔ Some k ∈ names.
Proof.
  unfold non_null_set. rewrite elem_of_list_to_set, list_elem_of_omap. split.
  - intros (x & Hx & Hid). unfold id in Hid. by subst x.
  - intros Hk. by exists (Some k).
Qed.

Lemma ancestor_keys (pt_list : list string) (db : Session) (k : string) :
  is_Some (foldl append_ancestor ∅
    (filter (λ m, PTtoHLTMapping.descendant_concept_name m ∈
                    (PTtoHLTMapping.descendant_concept_name <$>
                     filter (λ m, PTtoHLTMapping.descendant_concept_name m ∈ pt_list)
                       (pt_to_hlt_or_hlgt db))
                  ∧ PTtoHLTMapping.ancestor_concept_class_id m = "HLGT")
       (pt_to_hlt_or_hlgt db)) !! k)
  ↔ k ∈ pt_list
    ∧ ∃ m, m ∈ pt_to_hlt_or_hlgt db
           ∧ PTtoHLTMapping.descendant_concept_name m = k
           ∧ PTtoHLTMapping.ancestor_concept_class_id m = "HLGT".
Proof.
  rewrite append_ancestor_lookup, list_filter_filter.
  set (P := λ m, PTtoHLTMapping.descendant_concept_name m = k ∧ _).
  assert (filter P (pt_to_hlt_or_hlgt db) ≠ [] ↔
          k ∈ pt_list
          ∧ ∃ m, m ∈ pt_to_hlt_or_hlgt db
                 ∧ PTtoHLTMapping.descendant_concept_name m = k
                 ∧ PTtoHLTMapping.ancestor_concept_class_id m = "HLGT") as Hiff.
  { rewrite filter_nonempty_elem. split.
    - intros (m & Hm & <- & Hn & Hc). split; [|by exists m].
      by apply (elem_of_descendant_names pt_list (pt_to_hlt_or_hlgt db)).
    - intros (Hk & m & Hm & <- & Hc). exists m. split; [done|].
      split_and!; [done| |done].
      by apply (elem_of_descendant_names pt_list (pt_to_hlt_or_hlgt db)). }
  rewrite <- Hiff. destruct (filter P _); split; try done; try by intros [? ?].
Qed.

Lemma StronglySorted_strict {A} (R : relation A) `{!AntiSymm (=) R} (l : list A) :
  NoDup l → StronglySorted R l → StronglySorted (strict R) l.
Proof.
  intros Hnd Hs. induction Hs as [|x l Hs IH Hall]; [constructor|].
  apply NoDup_cons in Hnd as [Hx Hnd]. constructor; [by apply IH|].
  rewrite Forall_forall in *. intros y Hy. split; [by apply Hall|].
  intros Hyx. apply Hx. assert (x = y) as ->; [|done].
  apply (anti_symm R); [by apply Hall|done].
Qed.

Section listing_extras.
Variable exn_str : exn → string.

(** X12. /side_effects_names lists, without repetition, the event names of
    the single-drug table that have an ancestor row of class 'HLGT': it lists
    the keys of the ancestor mapping, that is the event names themselves, not
    the merged ancestor labels. *)
Theorem side_effects_names_are_descendants (db : Store) :
  ∃ l, get_side_effect_names exn_str db = Return l
    ∧ NoDup l
    ∧ ∀ k, k ∈ l ↔
        (∃ r, r ∈ single_drug_positive_controls db
              ∧ SingleDrugPositiveControls.event_concept_name r = Some k)
        ∧ ∃ m, m ∈ pt_to_hlt_or_hlgt (session db)
               ∧ PTtoHLTMapping.descendant_concept_name m = k
               ∧ PTtoHLTMapping.ancestor_concept_class_id m = "HLGT".
Proof.
  eexists. split; [reflexivity|]. split; [apply NoDup_elements|].
  intros k. rewrite elem_of_elements, dom_fmap_L, elem_of_dom, ancestor_keys.
  rewrite elem_of_elements, elem_of_non_null_set, elem_of_remove_dups, list_elem_of_fmap.
  split.
  - intros [(r & Hk & Hr) Hm]. split; [by exists r|done].
  - intros [(r & Hr & Hk) Hm]. split; [by exists r|done].
Qed.

(** X13. /barkla_side_effects_names lists the side effects of the
    weighted-rate table in strictly ascending order: sorted, each once, none
    missing. *)
Theorem barkla_side_effects_names_sorted (db : Session) :
  ∃ l, get_side_effect_names_barkla exn_str db = Return l
    ∧ StronglySorted (strict String.le) l
    ∧ ∀ k, k ∈ l ↔ ∃ r, r ∈ barkla_weighted_rate db ∧ BarklaData.side_effect r = k.
Proof.
  eexists. split; [reflexivity|]. split.
  - apply StronglySorted_strict; [apply _| |apply StronglySorted_merge_sort; apply _].
    rewrite merge_sort_Permutation. apply NoDup_elements.
  - intros k.
    rewrite merge_sort_Permutation, elem_of_elements, elem_of_list_to_set,
      elem_of_remove_dups, list_elem_of_fmap.
    split; intros (r & ? & ?); by exists r.
Qed.

(** X14. /drug_names lists, without repetition, exactly the non-null names
    that stand on either side of an interaction row; the names of the
    single-drug table play no part in the answer. *)
Theorem drug_names_from_interactions (db : Store) :
  ∃ l, get_drug_names exn_str db = Return l
    ∧ NoDup l
    ∧ ∀ k, k ∈ l ↔
        ∃ r, r ∈ all_drug_drug_interactions db
             ∧ (AllDrugDrugInteractions.drug_a_concept_name r = Some k
                ∨ AllDrugDrugInteractions.drug_b_concept_name r = Some k).
Proof.
  eexists. split; [reflexivity|]. split; [apply NoDup_elements|].
  intros k. rewrite elem_of_elements, elem_of_non_null_set, elem_of_app,
    !elem_of_remove_dups, !list_elem_of_fmap.
  split.
  - intros [(r & Hk & Hr)|(r & Hk & Hr)]; exists r; auto.
  - intros (r & Hr & [Hk|Hk]); [left|right]; by exists r.
Qed.

End listing_extras.

Example side_effects_names_demo :
  get_side_effect_names demo_exn_str demo_store = Return ["Headache"].
Proof. by vm_compute. Qed.

(** ** /ancestor_side_effects, /alternative_search *)

Section resolver_extras.
Variable exn_str : exn → string.

(** X15. /ancestor_side_effects depends on its list of names only as a set:
    repeating a name or reordering the list changes nothing, so no ancestor
    is joined twice for a name given twice. *)
Theorem ancestor_side_effects_set_of_names (pt_list pt_list' : list string)
    (db : Session) :
  (∀ k, k ∈ pt_list ↔ k ∈ pt_list') →
  get_ancestor_side_effects exn_str pt_list db
  = get_ancestor_side_effects exn_str pt_list' db.
Proof.
  intros Hset.
  assert (filter (λ m, PTtoHLTMapping.descendant_concept_name m ∈ pt_list)
            (pt_to_hlt_or_hlgt db)
          = filter (λ m, PTtoHLTMapping.descendant_concept_name m ∈ pt_list')
              (pt_to_hlt_or_hlgt db)) as Heq.
  { apply filter_ext_in. intros m _. apply Hset. }
  unfold get_ancestor_side_effects. by rewrite Heq.
Qed.

(** X16. A required list that names nothing but 'Sudden death' never yields
    an alternative: /alternative_search answers the empty list. *)
Theorem alternative_search_sudden_death (replaced_drug : string)
    (indication_list : list string) (db : Session) :
  (∀ i, i ∈ indication_list → i = "Sudden death") →
  alternative_search exn_str replaced_drug indication_list db = Return [].
Proof.
  intros Hall. unfold alternative_search.
  assert (subquery replaced_drug indication_list db = []) as ->; [|done].
  unfold subquery. rewrite filter_none; [done|].
  intros r _ (Hin & Hne & _).
  destruct (SiderDrugIndications.event_concept_name r) as [e|]; [|done].
  simpl in *. by apply Hne, Hall.
Qed.

End resolver_extras.

Lemma ancestor_side_effects_set_of_names_witness :
  get_ancestor_side_effects demo_exn_str ["Headache"; "Dizziness"; "Headache"] demo_db
  = get_ancestor_side_effects demo_exn_str ["Dizziness"; "Headache"] demo_db.
Proof.
  apply (ancestor_side_effects_set_of_names demo_exn_str
           ["Headache"; "Dizziness"; "Headache"] ["Dizziness"; "Headache"] demo_db).
  intros k. rewrite !elem_of_cons. tauto.
Defined.

Lemma alternative_search_sudden_death_witness :
  alternative_search demo_exn_str "aspirin" ["Sudden death"; "Sudden death"] demo_db
  = Return [].
Proof.
  apply (alternative_search_sudden_death demo_exn_str "aspirin"
           ["Sudden death"; "Sudden death"] demo_db).
  intros i Hi. repeat (apply elem_of_cons in Hi as [->|Hi]; [done|]).
  by apply not_elem_of_nil in Hi.
Defined.

(** ** /patient_diagnoses_mimic, /admission_details: the found paths *)

Lemma or_empty_default (c : option string) : or_empty c = default "" c.
Proof. destruct c as [s|]; simpl; [|done]. by destruct (decide (s = "")) as [->|]. Qed.

Lemma foldl_insert_titles_Some (l : list D_Icd.t) (t : D_Icd.t) :
  NoDup (D_Icd.ICD9_CODE <$> l) →
  t ∈ l →
  foldl (λ m d, <[Some (D_Icd.ICD9_CODE d) :=
                    (D_Icd.SHORT_TITLE d, D_Icd.LONG_TITLE d)]> m)
    (∅ : gmap (option string) (option string * option string)) l
    !! Some (D_Icd.ICD9_CODE t)
  = Some (D_Icd.SHORT_TITLE t, D_Icd.LONG_TITLE t).
Proof.
  induction l as [|t' l IH] using rev_ind; [by intros _ ?%not_elem_of_nil|].
  rewrite fmap_app, foldl_app. simpl. intros Hnd Ht.
  apply NoDup_app in Hnd as (Hnd & Hnew & _).
  apply elem_of_app in Ht as [Ht| ->%list_elem_of_singleton].
  - rewrite lookup_insert_ne; [by apply IH|].
    intros [= Heq]. apply (Hnew (D_Icd.ICD9_CODE t)).
    + apply list_elem_of_fmap. by exists t.
    + rewrite Heq. left.
  - by rewrite lookup_insert_eq.
Qed.

Section found_extras.
Variable exn_str : exn → string.
Variable int_eq_str : Z → string → bool.

(** X17. When the title table holds one row per ICD9 code (the code is its
    primary key), an entry of /patient_diagnoses_mimic whose code has a title
    row carries the short and long title of that row. *)
Theorem patient_diagnoses_titles (patient_id : string) (db : Session)
    (l : list DiagnosisEntry.t) (e : DiagnosisEntry.t) (t : D_Icd.t) :
  NoDup (D_Icd.ICD9_CODE <$> d_icd db) →
  get_patient_diagnoses_mimic exn_str int_eq_str patient_id db = Return l →
  e ∈ l →
  t ∈ d_icd db →
  DiagnosisEntry.icd9_code e = Some (D_Icd.ICD9_CODE t) →
  DiagnosisEntry.short_title e = D_Icd.SHORT_TITLE t
  ∧ DiagnosisEntry.long_title e = D_Icd.LONG_TITLE t.
Proof.
  intros Hnd Hret He Ht Hcode. unfold get_patient_diagnoses_mimic in Hret.
  destruct (find_patient int_eq_str patient_id db) as [p|]; [|discriminate].
  simpl in Hret. injection Hret as <-.
  apply list_elem_of_fmap in He as (c & -> & Hc).
  rewrite diagnosis_entry_icd9_code in Hcode. subst c.
  apply elem_of_elements, elem_of_list_to_set in Hc.
  unfold diagnosis_entry, titles_of.
  rewrite (foldl_insert_titles_Some _ t); [done| |by apply list_elem_of_filter].
  eapply sublist_NoDup; [exact Hnd|]. apply fmap_sublist, sublist_filter.
Qed.

(** X18. A patient that exists and has no diagnosis row gets the empty list
    from /patient_diagnoses_mimic, not an error. *)
Theorem patient_without_diagnoses (patient_id : string) (db : Session) :
  (∃ p, p ∈ patients db ∧ int_eq_str (Patient.SUBJECT_ID p) patient_id = true) →
  (∀ d, d ∈ diagnoses db → int_eq_str (Diagnosis.SUBJECT_ID d) patient_id = false) →
  get_patient_diagnoses_mimic exn_str int_eq_str patient_id db = Return [].
Proof.
  intros (p & Hp & Hmatch) Hnone.
  destruct (find_patient_Some int_eq_str patient_id db p Hp Hmatch) as [p' Hfind].
  unfold get_patient_diagnoses_mimic. rewrite Hfind.
  assert (patient_diagnoses int_eq_str patient_id db = []) as ->; [|done].
  apply filter_none. intros d Hd Ht. by rewrite (Hnone d Hd) in Ht.
Qed.

(** X19. When an admission row has the requested ID, /admission_details
    answers with a record of that ID built from such a row, in which a time
    or diagnosis that is null in the row is the empty string and any other
    value is passed on unchanged. *)
Theorem admission_details_found (hadm_id : Z) (db : Session) (a : Admission.t) :
  a ∈ admissions db →
  Admission.HADM_ID a = hadm_id →
  ∃ r a0,
    get_admission_details exn_str hadm_id db = Return r
    ∧ a0 ∈ admissions db
    ∧ Admission.HADM_ID a0 = hadm_id
    ∧ AdmissionResponse.hadm_id r = hadm_id
    ∧ AdmissionResponse.admission_time r = default "" (Admission.ADMITTIME a0)
    ∧ AdmissionResponse.discharge_time r = default "" (Admission.DISCHTIME a0)
    ∧ AdmissionResponse.diagnosis r = default "" (Admission.DIAGNOSIS a0).
Proof.
  intros Ha Hid. unfold get_admission_details.
  destruct (filter _ (admissions db)) as [|a0 rest] eqn:E.
  { assert (a ∈ filter (λ a, Admission.HADM_ID a = hadm_id) (admissions db)) as Hin
      by (by apply list_elem_of_filter).
    rewrite E in Hin. by apply not_elem_of_nil in Hin. }
  assert (a0 ∈ filter (λ a, Admission.HADM_ID a = hadm_id) (admissions db)) as Hin
    by (rewrite E; left).
  apply list_elem_of_filter in Hin as [Hid0 Hin].
  eexists _, a0. split; [reflexivity|]. simpl.
  by rewrite !or_empty_default.
Qed.

End found_extras.

Lemma patient_diagnoses_titles_witness :
  ∃ l e, get_patient_diagnoses_mimic demo_exn_str demo_int_eq_str "1" demo_db = Return l
       ∧ e ∈ l
       ∧ DiagnosisEntry.icd9_code e = Some "4019"
       ∧ DiagnosisEntry.short_title e = Some "Hypertension NOS"
       ∧ DiagnosisEntry.long_title e = Some "Unspecified essential hypertension".
Proof.
  eexists _, _. split; [vm_compute; reflexivity|].
  split; [right; left|]. split; [done|].
  eapply (patient_diagnoses_titles demo_exn_str demo_int_eq_str "1" demo_db _ _
            (D_Icd.mk "4019" (Some "Hypertension NOS")
               (Some "Unspecified essential hypertension")));
    [|vm_compute; reflexivity|right; left|left|done].
  simpl. apply NoDup_singleton.
Defined.

Lemma patient_without_diagnoses_witness :
  get_patient_diagnoses_mimic demo_exn_str demo_int_eq_str "1" demo_db_no_diagnoses
  = Return [].
Proof.
  apply (patient_without_diagnoses demo_exn_str demo_int_eq_str "1"
           demo_db_no_diagnoses).
  - exists (Patient.mk 1 "F" "1950-01-01 00:00:00"). split; [left|done].
  - intros d Hd. simpl in Hd. by apply list_elem_of_singleton in Hd as ->.
Defined.

Lemma admission_details_found_witness :
  get_admission_details demo_exn_str 100 demo_db
  = Return (AdmissionResponse.mk 100 "2100-01-01 10:00:00" "" "SEPSIS").
Proof.
  destruct (admission_details_found demo_exn_str 100 demo_db
              (Admission.mk 100 (Some "2100-01-01 10:00:00") None (Some "SEPSIS")))
    as (r & a0 & Hret & _); [left|done|].
  rewrite Hret. vm_compute in Hret. by injection Hret as <-.
Defined.
